(** * Curse-of-dimensionality experiment ([cod_exp.py])

    A shallow embedding of [exp_curse_of_dimensionality]: the sampling loop,
    the reduction of the pairwise distances to (min, max, ratio), and the
    pyplot calls that render, save, show and close the bar chart.

    Python floats are kept behind an interface, [Float], with two instances:
    the real numbers (for the general statements) and IEEE binary64 (the
    kernel's primitive floats, which is what CPython computes with, for
    running the reducer on concrete sample sets). *)

From Stdlib Require Import PrimFloat.
From Stdlib Require Uint63.
From Stdlib Require Import Reals Lra Lia ZArith.
From stdpp Require Import gmap strings list pretty.

Set Warnings "-inexact-float".

(** ** Exceptions and results *)

Inductive exn : Type :=
  | ValueError (msg : string)
  | ZeroDivisionError
  | OSError (msg : string)
  | DisplayError.

Inductive result (A : Type) : Type :=
  | Ok (a : A)
  | Raise (e : exn).
Arguments Ok {A} a.
Arguments Raise {A} e.

Definition rbind {A B : Type} (r : result A) (k : A -> result B) : result B :=
  match r with
  | Ok a => k a
  | Raise e => Raise e
  end.

(** ** The float interface *)

Class Float (F : Type) : Type := {
  fdec : Z -> Z -> F;            (* the literal m e: m * 10^e *)
  fadd : F -> F -> F;
  fsub : F -> F -> F;
  fmul : F -> F -> F;
  fdiv : F -> F -> F;            (* quotient by a divisor that is not zero *)
  fsqrt : F -> F;
  fltb : F -> F -> bool;
  feqb : F -> F -> bool;
  fisnan : F -> bool
}.

(** *** Real numbers *)

Definition Rdec (m e : Z) : R :=
  if (0 <=? e)%Z then IZR (m * 10 ^ e) else (IZR m / IZR (10 ^ (- e)))%R.

Definition Rltb (x y : R) : bool := if Rlt_dec x y then true else false.
Definition Reqb (x y : R) : bool := if Req_dec_T x y then true else false.

#[export] Instance Float_R : Float R := {
  fdec := Rdec;
  fadd := Rplus;
  fsub := Rminus;
  fmul := Rmult;
  fdiv := Rdiv;
  fsqrt := sqrt;
  fltb := Rltb;
  feqb := Reqb;
  fisnan := fun _ => false
}.

(** *** IEEE binary64 *)

Definition b64_of_Z (z : Z) : float :=
  if (z <? 0)%Z then PrimFloat.opp (PrimFloat.of_uint63 (Uint63.of_Z (- z)))
  else PrimFloat.of_uint63 (Uint63.of_Z z).

(* Correctly rounded whenever |m| < 2^53 and |e| <= 22: mantissa and power
   of ten are then exact, and one rounded operation remains. *)
Definition b64_dec (m e : Z) : float :=
  if (0 <=? e)%Z then PrimFloat.mul (b64_of_Z m) (b64_of_Z (10 ^ e))
  else PrimFloat.div (b64_of_Z m) (b64_of_Z (10 ^ (- e))).

#[export] Instance Float_b64 : Float float := {
  fdec := b64_dec;
  fadd := PrimFloat.add;
  fsub := PrimFloat.sub;
  fmul := PrimFloat.mul;
  fdiv := PrimFloat.div;
  fsqrt := PrimFloat.sqrt;
  fltb := PrimFloat.ltb;
  feqb := PrimFloat.eqb;
  fisnan := PrimFloat.is_nan
}.

(** ** The distance reducer (lines 36-44) *)

Section Reducer.
Context {F : Type} {FL : Float F}.

(* eps = 1e-12 *)
Definition eps : F := fdec 1 (-12).

(* Python's float [/]: a zero divisor raises. *)
Definition truediv (x y : F) : result F :=
  if feqb y (fdec 0 0) then Raise ZeroDivisionError else Ok (fdiv x y).

(* scipy.spatial.distance.pdist, default metric: the Euclidean norm of
   the coordinate differences ... *)
Definition sqdiff (a b : F) : F := fmul (fsub a b) (fsub a b).

Definition euclidean (u v : list F) : F :=
  fsqrt (fold_left fadd (zip_with sqdiff u v) (fdec 0 0)).

(* ... of row i and row j for every i < j, rows in order (the condensed
   distance matrix). *)
Fixpoint pdist (X : list (list F)) : list F :=
  match X with
  | [] => []
  | u :: rest => map (euclidean u) rest ++ pdist rest
  end.

(* np.minimum / np.maximum: a NaN operand wins. *)
Definition fminimum (a b : F) : F :=
  if fisnan a then a else if fisnan b then b else if fltb b a then b else a.
Definition fmaximum (a b : F) : F :=
  if fisnan a then a else if fisnan b then b else if fltb a b then b else a.

(* ndarray.min() / ndarray.max(): a reduction without identity. *)
Definition array_min (d : list F) : result F :=
  match d with
  | [] => Raise (ValueError "zero-size array to reduction operation minimum which has no identity")
  | x :: xs => Ok (fold_left fminimum xs x)
  end.
Definition array_max (d : list F) : result F :=
  match d with
  | [] => Raise (ValueError "zero-size array to reduction operation maximum which has no identity")
  | x :: xs => Ok (fold_left fmaximum xs x)
  end.

Definition distance_stats (vectors : list (list F)) : result (F * F * F) :=
  let dists := pdist vectors in
  rbind (array_min dists) (fun min_dist =>
  rbind (array_max dists) (fun max_dist =>
  rbind (truediv max_dist (fadd min_dist eps)) (fun ratio =>
  Ok (min_dist, max_dist, ratio)))).
End Reducer.

(** ** Formatted strings

    An f-string is kept as its parts: literal text and replacement fields
    with their format specification. *)

Inductive presentation : Type := General | Scientific.

Record format_spec : Type := { fs_precision : nat; fs_type : presentation }.

(* The number of significant digits a specification asks for:
   [.Ng] gives N of them (at least one), [.Ne] one digit before the point
   and N after it. *)
Definition significant_digits (s : format_spec) : nat :=
  match fs_type s with
  | General => Nat.max 1 (fs_precision s)
  | Scientific => S (fs_precision s)
  end.

Inductive fpart (F : Type) : Type :=
  | Lit (s : string)
  | FmtInt (n : nat)
  | FmtStr (s : string)
  | FmtFloat (spec : format_spec) (x : F).
Arguments Lit {F} s.
Arguments FmtInt {F} n.
Arguments FmtStr {F} s.
Arguments FmtFloat {F} spec x.

(** ** Figures *)

Record Bar (F : Type) : Type := {
  bar_x : F;              (* left edge *)
  bar_width : F;
  bar_height : F;
  bar_color : string;
  bar_edgecolor : string;
  bar_linewidth : F
}.
Arguments bar_x {F}. Arguments bar_width {F}. Arguments bar_height {F}.
Arguments bar_color {F}. Arguments bar_edgecolor {F}. Arguments bar_linewidth {F}.

Record Annotation (F : Type) : Type := {
  ann_text : list (fpart F);
  ann_xy : F * F;
  ann_xytext : Z * Z;
  ann_textcoords : string;
  ann_ha : string;
  ann_va : string;
  ann_fontsize : Z;
  ann_color : string
}.

Inductive spine : Type := SpineTop | SpineRight.

Record Grid (F : Type) : Type := {
  grid_which : string; grid_axis : string; grid_linestyle : string; grid_alpha : F
}.

Record Axes (F : Type) : Type := {
  ax_bars : list (Bar F);
  ax_xticks : list nat;
  ax_xticklabels : list string;
  ax_xticklabels_ha : string;
  ax_yscale : string;
  ax_xlabel : string * Z;
  ax_ylabel : string * Z;
  ax_title : string * Z * string;
  ax_grid : option (Grid F);
  ax_spine_top : bool;
  ax_spine_right : bool;
  ax_annotations : list (Annotation F)
}.
Arguments ax_bars {F}. Arguments ax_xticks {F}. Arguments ax_xticklabels {F}.
Arguments ax_xticklabels_ha {F}. Arguments ax_yscale {F}. Arguments ax_xlabel {F}.
Arguments ax_ylabel {F}. Arguments ax_title {F}. Arguments ax_grid {F}.
Arguments ax_spine_top {F}. Arguments ax_spine_right {F}. Arguments ax_annotations {F}.

Record Figure (F : Type) : Type := {
  fig_size : Z * Z;
  fig_dpi : Z;
  fig_rc : gmap string string;   (* the rcParams it was created under *)
  fig_axes : Axes F;
  fig_tight : bool
}.
Arguments fig_size {F}. Arguments fig_dpi {F}. Arguments fig_rc {F}.
Arguments fig_axes {F}. Arguments fig_tight {F}.

Inductive file_data (F : Type) : Type :=
  | Image (fig : Figure F) (bbox_inches : string)
  | Bytes (content : string).
Arguments Image {F} fig bbox_inches.
Arguments Bytes {F} content.

(* The pyplot calls whose effect is seen outside the figure objects. *)
Inductive call : Type :=
  | StyleUse (name : string)
  | Subplots (id : nat)
  | Savefig (id : nat) (path : string)
  | Show (ids : list nat)
  | Close (id : nat).

(** ** The process state and its surroundings *)

Record World (F : Type) : Type := {
  rng_pos : nat;                      (* draws consumed from the random source *)
  stdout : list (list (fpart F));     (* console lines *)
  rcParams : gmap string string;      (* process-wide plotting style *)
  figures : gmap nat (Figure F);      (* figure objects, by identity *)
  managed : list nat;                 (* open figures (pyplot's registry), current last *)
  next_id : nat;
  files : gmap string (file_data F);
  calls : list call
}.
Arguments rng_pos {F}. Arguments stdout {F}. Arguments rcParams {F}.
Arguments figures {F}. Arguments managed {F}. Arguments next_id {F}.
Arguments files {F}. Arguments calls {F}.

Record Env (F : Type) : Type := {
  draws : nat -> F;                                 (* the random source, in [0, 1) *)
  style_library : gmap string (gmap string string); (* the styles pyplot knows *)
  writable : string -> bool;                        (* can a file be created there *)
  display_ok : bool                                 (* is there a display to show on *)
}.
Arguments draws {F}. Arguments style_library {F}.
Arguments writable {F}. Arguments display_ok {F}.

(** ** Computations: state and exceptions *)

Definition M (F A : Type) : Type := World F -> result A * World F.

Definition ret {F A : Type} (a : A) : M F A := fun w => (Ok a, w).
Definition raise {F A : Type} (e : exn) : M F A := fun w => (Raise e, w).
Definition bind {F A B : Type} (c : M F A) (k : A -> M F B) : M F B :=
  fun w => match c w with
           | (Ok a, w') => k a w'
           | (Raise e, w') => (Raise e, w')
           end.
Definition lift {F A : Type} (r : result A) : M F A := fun w => (r, w).

Notation "x <- c ;; k" := (bind c (fun x => k))
  (at level 100, c at next level, right associativity).
Notation "c ;;; k" := (bind c (fun _ => k))
  (at level 100, right associativity).

(* for x in l: acc = body(x, acc) *)
Fixpoint for_each {F A B : Type} (l : list A) (body : A -> B -> M F B) (acc : B) : M F B :=
  match l with
  | [] => ret acc
  | x :: rest => acc' <- body x acc ;; for_each rest body acc'
  end.

(* for x in l: body(x) *)
Fixpoint for_ {F A : Type} (l : list A) (body : A -> M F unit) : M F unit :=
  match l with
  | [] => ret tt
  | x :: rest => body x ;;; for_ rest body
  end.

(** ** Field updates of the world *)

Section Updates.
Context {F : Type}.

Definition set_rng_pos (n : nat) (w : World F) : World F :=
  {| rng_pos := n; stdout := stdout w; rcParams := rcParams w;
     figures := figures w; managed := managed w; next_id := next_id w;
     files := files w; calls := calls w |}.
Definition set_stdout (o : list (list (fpart F))) (w : World F) : World F :=
  {| rng_pos := rng_pos w; stdout := o; rcParams := rcParams w;
     figures := figures w; managed := managed w; next_id := next_id w;
     files := files w; calls := calls w |}.
Definition set_rcParams (rc : gmap string string) (w : World F) : World F :=
  {| rng_pos := rng_pos w; stdout := stdout w; rcParams := rc;
     figures := figures w; managed := managed w; next_id := next_id w;
     files := files w; calls := calls w |}.
Definition set_figures (fs : gmap nat (Figure F)) (w : World F) : World F :=
  {| rng_pos := rng_pos w; stdout := stdout w; rcParams := rcParams w;
     figures := fs; managed := managed w; next_id := next_id w;
     files := files w; calls := calls w |}.
Definition set_managed (m : list nat) (w : World F) : World F :=
  {| rng_pos := rng_pos w; stdout := stdout w; rcParams := rcParams w;
     figures := figures w; managed := m; next_id := next_id w;
     files := files w; calls := calls w |}.
Definition set_next_id (n : nat) (w : World F) : World F :=
  {| rng_pos := rng_pos w; stdout := stdout w; rcParams := rcParams w;
     figures := figures w; managed := managed w; next_id := n;
     files := files w; calls := calls w |}.
Definition set_files (fs : gmap string (file_data F)) (w : World F) : World F :=
  {| rng_pos := rng_pos w; stdout := stdout w; rcParams := rcParams w;
     figures := figures w; managed := managed w; next_id := next_id w;
     files := fs; calls := calls w |}.
Definition log (c : call) (w : World F) : World F :=
  {| rng_pos := rng_pos w; stdout := stdout w; rcParams := rcParams w;
     figures := figures w; managed := managed w; next_id := next_id w;
     files := files w; calls := calls w ++ [c] |}.

Definition with_axes (f : Axes F -> Axes F) (fg : Figure F) : Figure F :=
  {| fig_size := fig_size fg; fig_dpi := fig_dpi fg; fig_rc := fig_rc fg;
     fig_axes := f (fig_axes fg); fig_tight := fig_tight fg |}.
Definition with_tight (fg : Figure F) : Figure F :=
  {| fig_size := fig_size fg; fig_dpi := fig_dpi fg; fig_rc := fig_rc fg;
     fig_axes := fig_axes fg; fig_tight := true |}.
End Updates.

(** ** numpy, print and pyplot *)

Section Primitives.
Context {F : Type} {FL : Float F}.
Variable env : Env F.

(* np.random.rand(rows, cols): the next rows*cols draws, row by row. *)
Definition rand_matrix (pos rows cols : nat) : list (list F) :=
  map (fun i => map (fun j => draws env (pos + i * cols + j)) (seq 0 cols)) (seq 0 rows).

Definition np_random_rand (rows cols : nat) : M F (list (list F)) :=
  fun w => (Ok (rand_matrix (rng_pos w) rows cols),
            set_rng_pos (rng_pos w + rows * cols) w).

Definition print (line : list (fpart F)) : M F unit :=
  fun w => (Ok tt, set_stdout (stdout w ++ [line]) w).

(* plt.style.use(name): the style's settings are written over the
   process-wide rcParams; an unknown name is an OSError. *)
Definition plt_style_use (name : string) : M F unit :=
  fun w => match style_library env !! name with
           | Some settings => (Ok tt, log (StyleUse name) (set_rcParams (settings ∪ rcParams w) w))
           | None => (Raise (OSError name), w)
           end.

Definition empty_axes : Axes F :=
  {| ax_bars := []; ax_xticks := []; ax_xticklabels := []; ax_xticklabels_ha := "center";
     ax_yscale := "linear"; ax_xlabel := ("", 0%Z); ax_ylabel := ("", 0%Z);
     ax_title := ("", 0%Z, "normal"); ax_grid := None;
     ax_spine_top := true; ax_spine_right := true; ax_annotations := [] |}.

(* A new figure object, registered with pyplot and made current. *)
Definition new_figure (figsize : Z * Z) (dpi : Z) : M F nat :=
  fun w =>
    let id := next_id w in
    let fg := {| fig_size := figsize; fig_dpi := dpi; fig_rc := rcParams w;
                 fig_axes := empty_axes; fig_tight := false |} in
    (Ok id, log (Subplots id)
              (set_next_id (S id) (set_managed (managed w ++ [id])
                 (set_figures (<[id := fg]> (figures w)) w)))).

(* fig, ax = plt.subplots(figsize=..., dpi=...): one figure with one axes;
   the axes are referred to through the figure that owns them. *)
Definition plt_subplots (figsize : Z * Z) (dpi : Z) : M F (nat * nat) :=
  id <- new_figure figsize dpi ;; ret (id, id).

Definition update_axes (ax : nat) (f : Axes F -> Axes F) : M F unit :=
  fun w => (Ok tt, set_figures (alter (with_axes f) ax (figures w)) w).

Definition of_nat (n : nat) : F := fdec (Z.of_nat n) 0.

(* ax.bar(x, height, ...): bars centred on x; x and height must agree in
   length (no operand of length one occurs here, so numpy's broadcasting of
   such an operand is left out). *)
Definition ax_bar (ax : nat) (x : list nat) (height : list F) (color : list string)
    (width : F) (edgecolor : string) (linewidth : F) : M F (list (Bar F)) :=
  if negb (length x =? length height) then
    raise (ValueError "shape mismatch: objects cannot be broadcast to a single shape")
  else
    let bars := zip_with (fun xc hc =>
                  {| bar_x := fsub (of_nat (fst xc)) (fdiv width (fdec 2 0));
                     bar_width := width; bar_height := hc;
                     bar_color := snd xc; bar_edgecolor := edgecolor;
                     bar_linewidth := linewidth |})
                  (zip x color) height in
    update_axes ax (fun a =>
      {| ax_bars := ax_bars a ++ bars; ax_xticks := ax_xticks a;
         ax_xticklabels := ax_xticklabels a; ax_xticklabels_ha := ax_xticklabels_ha a;
         ax_yscale := ax_yscale a; ax_xlabel := ax_xlabel a; ax_ylabel := ax_ylabel a;
         ax_title := ax_title a; ax_grid := ax_grid a; ax_spine_top := ax_spine_top a;
         ax_spine_right := ax_spine_right a; ax_annotations := ax_annotations a |}) ;;;
    ret bars.

Definition ax_set_xticks (ax : nat) (x : list nat) : M F unit :=
  update_axes ax (fun a =>
    {| ax_bars := ax_bars a; ax_xticks := x;
       ax_xticklabels := ax_xticklabels a; ax_xticklabels_ha := ax_xticklabels_ha a;
       ax_yscale := ax_yscale a; ax_xlabel := ax_xlabel a; ax_ylabel := ax_ylabel a;
       ax_title := ax_title a; ax_grid := ax_grid a; ax_spine_top := ax_spine_top a;
       ax_spine_right := ax_spine_right a; ax_annotations := ax_annotations a |}).

(* ax.set_xticklabels(labels, ha=...): as many labels as fixed ticks. *)
Definition ax_set_xticklabels (ax : nat) (labels : list string) (ha : string) : M F unit :=
  fun w =>
    let nticks := match figures w !! ax with
                  | Some fg => length (ax_xticks (fig_axes fg))
                  | None => 0
                  end in
    if negb (nticks =? length labels) then
      (Raise (ValueError "the number of FixedLocator locations does not match the number of labels"), w)
    else
      update_axes ax (fun a =>
        {| ax_bars := ax_bars a; ax_xticks := ax_xticks a;
           ax_xticklabels := labels; ax_xticklabels_ha := ha;
           ax_yscale := ax_yscale a; ax_xlabel := ax_xlabel a; ax_ylabel := ax_ylabel a;
           ax_title := ax_title a; ax_grid := ax_grid a; ax_spine_top := ax_spine_top a;
           ax_spine_right := ax_spine_right a; ax_annotations := ax_annotations a |}) w.

Definition ax_set_yscale (ax : nat) (scale : string) : M F unit :=
  update_axes ax (fun a =>
    {| ax_bars := ax_bars a; ax_xticks := ax_xticks a;
       ax_xticklabels := ax_xticklabels a; ax_xticklabels_ha := ax_xticklabels_ha a;
       ax_yscale := scale; ax_xlabel := ax_xlabel a; ax_ylabel := ax_ylabel a;
       ax_title := ax_title a; ax_grid := ax_grid a; ax_spine_top := ax_spine_top a;
       ax_spine_right := ax_spine_right a; ax_annotations := ax_annotations a |}).

Definition ax_set_xlabel (ax : nat) (label : string) (fontsize : Z) : M F unit :=
  update_axes ax (fun a =>
    {| ax_bars := ax_bars a; ax_xticks := ax_xticks a;
       ax_xticklabels := ax_xticklabels a; ax_xticklabels_ha := ax_xticklabels_ha a;
       ax_yscale := ax_yscale a; ax_xlabel := (label, fontsize); ax_ylabel := ax_ylabel a;
       ax_title := ax_title a; ax_grid := ax_grid a; ax_spine_top := ax_spine_top a;
       ax_spine_right := ax_spine_right a; ax_annotations := ax_annotations a |}).

Definition ax_set_ylabel (ax : nat) (label : string) (fontsize : Z) : M F unit :=
  update_axes ax (fun a =>
    {| ax_bars := ax_bars a; ax_xticks := ax_xticks a;
       ax_xticklabels := ax_xticklabels a; ax_xticklabels_ha := ax_xticklabels_ha a;
       ax_yscale := ax_yscale a; ax_xlabel := ax_xlabel a; ax_ylabel := (label, fontsize);
       ax_title := ax_title a; ax_grid := ax_grid a; ax_spine_top := ax_spine_top a;
       ax_spine_right := ax_spine_right a; ax_annotations := ax_annotations a |}).

Definition ax_set_title (ax : nat) (label : string) (fontsize : Z) (weight : string) : M F unit :=
  update_axes ax (fun a =>
    {| ax_bars := ax_bars a; ax_xticks := ax_xticks a;
       ax_xticklabels := ax_xticklabels a; ax_xticklabels_ha := ax_xticklabels_ha a;
       ax_yscale := ax_yscale a; ax_xlabel := ax_xlabel a; ax_ylabel := ax_ylabel a;
       ax_title := (label, fontsize, weight); ax_grid := ax_grid a;
       ax_spine_top := ax_spine_top a;
       ax_spine_right := ax_spine_right a; ax_annotations := ax_annotations a |}).

Definition ax_grid_on (ax : nat) (which axis linestyle : string) (alpha : F) : M F unit :=
  update_axes ax (fun a =>
    {| ax_bars := ax_bars a; ax_xticks := ax_xticks a;
       ax_xticklabels := ax_xticklabels a; ax_xticklabels_ha := ax_xticklabels_ha a;
       ax_yscale := ax_yscale a; ax_xlabel := ax_xlabel a; ax_ylabel := ax_ylabel a;
       ax_title := ax_title a;
       ax_grid := Some {| grid_which := which; grid_axis := axis;
                          grid_linestyle := linestyle; grid_alpha := alpha |};
       ax_spine_top := ax_spine_top a;
       ax_spine_right := ax_spine_right a; ax_annotations := ax_annotations a |}).

(* ax.spines[name].set_visible(visible), for the two spines the program touches. *)
Definition ax_spine_set_visible (ax : nat) (name : spine) (visible : bool) : M F unit :=
  update_axes ax (fun a =>
    {| ax_bars := ax_bars a; ax_xticks := ax_xticks a;
       ax_xticklabels := ax_xticklabels a; ax_xticklabels_ha := ax_xticklabels_ha a;
       ax_yscale := ax_yscale a; ax_xlabel := ax_xlabel a; ax_ylabel := ax_ylabel a;
       ax_title := ax_title a; ax_grid := ax_grid a;
       ax_spine_top := match name with SpineTop => visible | SpineRight => ax_spine_top a end;
       ax_spine_right := match name with SpineRight => visible | SpineTop => ax_spine_right a end;
       ax_annotations := ax_annotations a |}).

Definition ax_annotate (ax : nat) (an : Annotation F) : M F unit :=
  update_axes ax (fun a =>
    {| ax_bars := ax_bars a; ax_xticks := ax_xticks a;
       ax_xticklabels := ax_xticklabels a; ax_xticklabels_ha := ax_xticklabels_ha a;
       ax_yscale := ax_yscale a; ax_xlabel := ax_xlabel a; ax_ylabel := ax_ylabel a;
       ax_title := ax_title a; ax_grid := ax_grid a; ax_spine_top := ax_spine_top a;
       ax_spine_right := ax_spine_right a;
       ax_annotations := ax_annotations a ++ [an] |}).

(* plt.tight_layout(): lays out the current figure; pyplot makes one when
   none is open. *)
Definition plt_tight_layout : M F unit :=
  fun w => match last (managed w) with
           | Some id => (Ok tt, set_figures (alter with_tight id (figures w)) w)
           | None =>
               (id <- new_figure (8%Z, 5%Z) 100%Z ;;
                fun w' => (Ok tt, set_figures (alter with_tight id (figures w')) w')) w
           end.

(* fig.savefig(path, bbox_inches=...): the rendered figure becomes the
   content of the file at path; a path that cannot be written is an OSError. *)
Definition fig_savefig (fig : nat) (path : string) (bbox_inches : string) : M F unit :=
  fun w =>
    if writable env path then
      match figures w !! fig with
      | Some fg => (Ok tt, log (Savefig fig path)
                             (set_files (<[path := Image fg bbox_inches]> (files w)) w))
      | None => (Raise (ValueError "no such figure"), w)
      end
    else (Raise (OSError path), w).

(* plt.show(): presents every open figure and blocks until dismissed. *)
Definition plt_show : M F unit :=
  fun w => if display_ok env then (Ok tt, log (Show (managed w)) w)
           else (Raise DisplayError, w).

(* plt.close(fig): the figure leaves pyplot's registry. *)
Definition plt_close (fig : nat) : M F unit :=
  fun w => (Ok tt, log (Close fig) (set_managed (filter (fun i => i ≠ fig) (managed w)) w)).
End Primitives.

(** ** The program *)

Section Program.
Context {F : Type} {FL : Float F}.
Variable env : Env F.

Definition dimensions : list nat := [2; 3; 192; 384; 768; 1536].

(* The three lists the loop appends to. *)
Record Stats : Type := {
  ratios : list F;
  min_dists : list F;
  max_dists : list F
}.

Definition g6 : format_spec := {| fs_precision := 6; fs_type := General |}.
Definition e2 : format_spec := {| fs_precision := 2; fs_type := Scientific |}.

Definition report (dim : nat) (min_dist max_dist ratio : F) : list (fpart F) :=
  [Lit "Dimension: "; FmtInt dim;
   Lit ", Min Distance: "; FmtFloat g6 min_dist;
   Lit ", Max Distance: "; FmtFloat g6 max_dist;
   Lit ", Ratio (Max/Min): "; FmtFloat g6 ratio].

(* Lines 32-47, one turn of the loop. *)
Definition loop_body (dim : nat) (acc : Stats) : M F Stats :=
  vectors <- np_random_rand env 1000 dim ;;
  stats <- lift (distance_stats vectors) ;;
  let '(min_dist, max_dist, ratio) := stats in
  print (report dim min_dist max_dist ratio) ;;;
  ret {| ratios := ratios acc ++ [ratio];
         min_dists := min_dists acc ++ [min_dist];
         max_dists := max_dists acc ++ [max_dist] |}.

Definition sample_all : M F Stats :=
  for_each dimensions loop_body {| ratios := []; min_dists := []; max_dists := [] |}.

(* Python's truth value of [save_path]: None and the empty string are false. *)
Definition truthy (save_path : option string) : bool :=
  match save_path with
  | Some p => negb (String.eqb p "")
  | None => false
  end.

Definition annotate_bar (ax : nat) (b : Bar F * F) : M F unit :=
  let '(bar, yi) := b in
  let height := bar_height bar in
  ax_annotate ax
    {| ann_text := [FmtFloat e2 yi];
       ann_xy := (fadd (bar_x bar) (fdiv (bar_width bar) (fdec 2 0)), height);
       ann_xytext := (0%Z, 6%Z); ann_textcoords := "offset points";
       ann_ha := "center"; ann_va := "bottom"; ann_fontsize := 9%Z;
       ann_color := "#034e7b" |}.

(* Lines 50-79. *)
Definition render (rs : list F) : M F (nat * nat) :=
  plt_style_use env "seaborn-v0_8" ;;;
  fa <- plt_subplots (11%Z, 6%Z) 150%Z ;;
  let '(fig, ax) := fa in
  let x := seq 0 (length dimensions) in
  let bar_colors := repeat "#2b8cbe"%string (length x) in
  bars <- ax_bar ax x rs bar_colors (fdec 6 (-1)) "#204d74" (fdec 8 (-1)) ;;
  ax_set_xticks ax x ;;;
  ax_set_xticklabels ax (map (fun d : nat => pretty d) dimensions) "right" ;;;
  ax_set_yscale ax "log" ;;;
  ax_set_xlabel ax "Dimension" 14%Z ;;;
  ax_set_ylabel ax "Max / Min pairwise distance ratio (log scale)" 12%Z ;;;
  ax_set_title ax "Curse of Dimensionality: Max/Min Distance Ratio vs Dimension" 14%Z "bold" ;;;
  ax_grid_on ax "both" "y" "--" (fdec 6 (-1)) ;;;
  ax_spine_set_visible ax SpineTop false ;;;
  ax_spine_set_visible ax SpineRight false ;;;
  for_ (zip bars rs) (annotate_bar ax) ;;;
  plt_tight_layout ;;;
  ret (fig, ax).

(* Lines 81-89. *)
Definition finish (fig ax : nat) (save_path : option string) (show : bool) : M F (nat * nat) :=
  (if truthy save_path then
     let p := default ""%string save_path in
     fig_savefig env fig p "tight" ;;;
     print [Lit "Saved plot to "; FmtStr p]
   else ret tt) ;;;
  (if show then plt_show env else ret tt) ;;;
  plt_close fig ;;;
  ret (fig, ax).

Definition exp_curse_of_dimensionality (save_path : option string) (show : bool)
    : M F (nat * nat) :=
  st <- sample_all ;;
  fa <- render (ratios st) ;;
  finish (fst fa) (snd fa) save_path show.

(* A call site may leave either argument out; the defaults of the
   signature then apply. *)
Definition default_save_path : option string := None.
Definition default_show : bool := true.

Definition call_exp (save_path : option (option string)) (show : option bool)
    : M F (nat * nat) :=
  exp_curse_of_dimensionality (default default_save_path save_path)
                              (default default_show show).

(* if __name__ == "__main__": exp_curse_of_dimensionality() *)
Definition main : M F unit :=
  call_exp None None ;;; ret tt.
End Program.

(** * The vocabulary of the statements *)

(* The Euclidean distance as the specification writes it. *)
Definition l2_distance (u v : list R) : R :=
  sqrt (foldr Rplus 0%R (zip_with (fun a b => ((a - b) * (a - b))%R) u v)).

Section Vocabulary.
Context {F : Type} {FL : Float F}.
Variable env : Env F.

(* The triples (min, max, ratio) of the samples drawn for [dims], the random
   source standing at [pos]. *)
Fixpoint sampled (pos : nat) (dims : list nat) (ts : list (F * F * F)) : Prop :=
  match dims, ts with
  | [], [] => True
  | d :: dims', t :: ts' =>
      distance_stats (rand_matrix env pos 1000 d) = Ok t /\
      sampled (pos + 1000 * d) dims' ts'
  | _, _ => False
  end.

Definition reports (dims : list nat) (ts : list (F * F * F)) : list (list (fpart F)) :=
  zip_with (fun dim t => report dim (fst (fst t)) (snd (fst t)) (snd t)) dims ts.

Definition extend (acc : Stats) (ts : list (F * F * F)) : Stats :=
  {| ratios := ratios acc ++ map snd ts;
     min_dists := min_dists acc ++ map (fun t => fst (fst t)) ts;
     max_dists := max_dists acc ++ map (fun t => snd (fst t)) ts |}.

Definition stats_of (ts : list (F * F * F)) : Stats :=
  {| ratios := map snd ts;
     min_dists := map (fun t => fst (fst t)) ts;
     max_dists := map (fun t => snd (fst t)) ts |}.

Definition after_sampling (ts : list (F * F * F)) (w : World F) : World F :=
  set_stdout (stdout w ++ reports dimensions ts)
    (set_rng_pos (rng_pos w + 1000 * sum_list dimensions) w).

(* The world after a rendering that went through: the style applied, one
   new figure [fg], open and current. *)
Definition rendered (s : gmap string string) (fg : Figure F) (w : World F) : World F :=
  {| rng_pos := rng_pos w; stdout := stdout w;
     rcParams := s ∪ rcParams w;
     figures := <[next_id w := fg]> (figures w);
     managed := managed w ++ [next_id w];
     next_id := S (next_id w);
     files := files w;
     calls := calls w ++ [StyleUse "seaborn-v0_8"; Subplots (next_id w)] |}.

Definition after_save (fig : nat) (fg : Figure F) (p : string) (w : World F) : World F :=
  set_stdout (stdout w ++ [[Lit "Saved plot to "; FmtStr p]])
    (log (Savefig fig p) (set_files (<[p := Image fg "tight"]> (files w)) w)).

Definition after_show (w : World F) : World F := log (Show (managed w)) w.

Definition after_close (fig : nat) (w : World F) : World F :=
  log (Close fig) (set_managed (filter (fun i => i ≠ fig) (managed w)) w).

(* Where a run that got past rendering ends: the outcome of lines 81-89
   on the rendered world [w2], whose new figure is [fig]. *)
Definition outcome (fig : nat) (fg : Figure F) (save_path : option string)
    (show : bool) (w2 : World F) : result (nat * nat) * World F :=
  let p := default ""%string save_path in
  if truthy save_path && negb (writable env p) then (Raise (OSError p), w2)
  else
    let w3 := if truthy save_path then after_save fig fg p w2 else w2 in
    if show && negb (display_ok env) then (Raise DisplayError, w3)
    else
      let w4 := if show then after_show w3 else w3 in
      (Ok (fig, fig), after_close fig w4).
End Vocabulary.

(* The presentations among the pyplot calls: which figures each showed. *)
Definition shown (cs : list call) : list (list nat) :=
  omap (fun c => match c with Show ids => Some ids | _ => None end) cs.

(** ** Three machines, one fresh process *)

(* What the seaborn-v0_8 style sheet sets (one of its entries suffices). *)
Definition seaborn_v0_8 : gmap string string := {[ "axes.facecolor"%string := "#EAEAF2"%string ]}.

(* A random source with values in (0, 1/2]. *)
Definition draws_unit (n : nat) : R := (/ INR (n + 2))%R.

(* A desktop: files can be written and there is a display. *)
Definition env_desktop : Env R :=
  {| draws := draws_unit;
     style_library := {[ "seaborn-v0_8"%string := seaborn_v0_8 ]};
     writable := fun _ => true;
     display_ok := true |}.

(* The same with no place to write to. *)
Definition env_readonly : Env R :=
  {| draws := draws_unit;
     style_library := {[ "seaborn-v0_8"%string := seaborn_v0_8 ]};
     writable := fun _ => false;
     display_ok := true |}.

(* The same with no display. *)
Definition env_headless : Env R :=
  {| draws := draws_unit;
     style_library := {[ "seaborn-v0_8"%string := seaborn_v0_8 ]};
     writable := fun _ => true;
     display_ok := false |}.

(* A process that has plotted nothing yet, under matplotlib's default style. *)
Definition w_fresh : World R :=
  {| rng_pos := 0; stdout := [];
     rcParams := {[ "axes.facecolor"%string := "white"%string ]};
     figures := ∅; managed := []; next_id := 0; files := ∅; calls := [] |}.

(** ** The pyplot part in binary64 *)

(* Six ratios of the kind a run prints. *)
Definition ratios_b64 : list float :=
  [1134.25; 85.5; 1.3125; 1.21875; 1.15625; 1.109375]%float.

(* The desktop again, computing in binary64. *)
Definition env_b64 : Env float :=
  {| draws := fun _ => 0.5%float;
     style_library := {[ "seaborn-v0_8"%string := seaborn_v0_8 ]};
     writable := fun _ => true;
     display_ok := true |}.

Definition w_b64 : World float :=
  {| rng_pos := 0; stdout := [];
     rcParams := {[ "axes.facecolor"%string := "white"%string ]};
     figures := ∅; managed := []; next_id := 0; files := ∅; calls := [] |}.

(* Lines 50-89 on those ratios. *)
Definition plot_b64 (save_path : option string) (show : bool)
    : result (nat * nat) * World float :=
  (fa <- render env_b64 ratios_b64 ;; finish env_b64 (fst fa) (snd fa) save_path show) w_b64.

(** ** The chart *)

Arguments ann_text {F}. Arguments ann_xy {F}. Arguments ann_xytext {F}.

Section Chart.
Context {F : Type} {FL : Float F}.

(* The bar ax.bar draws at tick [i] with height [h] (lines 55-56). *)
Definition bar_at (i : nat) (h : F) : Bar F :=
  {| bar_x := fsub (of_nat i) (fdiv (fdec 6 (-1)) (fdec 2 0));
     bar_width := fdec 6 (-1); bar_height := h;
     bar_color := "#2b8cbe"; bar_edgecolor := "#204d74";
     bar_linewidth := fdec 8 (-1) |}.

(* The label ax.annotate puts on that bar for the ratio [yi] (lines 73-77). *)
Definition label_at (i : nat) (yi : F) : Annotation F :=
  {| ann_text := [FmtFloat e2 yi];
     ann_xy := (fadd (bar_x (bar_at i yi)) (fdiv (bar_width (bar_at i yi)) (fdec 2 0)),
                bar_height (bar_at i yi));
     ann_xytext := (0%Z, 6%Z); ann_textcoords := "offset points";
     ann_ha := "center"; ann_va := "bottom"; ann_fontsize := 9%Z;
     ann_color := "#034e7b" |}.

(* The figure lines 51-79 build from the ratios [rs] under the rcParams [rc]. *)
Definition chart (rc : gmap string string) (rs : list F) : Figure F :=
  {| fig_size := (11%Z, 6%Z); fig_dpi := 150%Z; fig_rc := rc;
     fig_axes :=
       {| ax_bars := zip_with bar_at (seq 0 (length dimensions)) rs;
          ax_xticks := seq 0 (length dimensions);
          ax_xticklabels := map (fun d : nat => pretty d) dimensions;
          ax_xticklabels_ha := "right";
          ax_yscale := "log";
          ax_xlabel := ("Dimension"%string, 14%Z);
          ax_ylabel := ("Max / Min pairwise distance ratio (log scale)"%string, 12%Z);
          ax_title := ("Curse of Dimensionality: Max/Min Distance Ratio vs Dimension"%string,
                       14%Z, "bold"%string);
          ax_grid := Some {| grid_which := "both"; grid_axis := "y";
                             grid_linestyle := "--"; grid_alpha := fdec 6 (-1) |};
          ax_spine_top := false; ax_spine_right := false;
          ax_annotations := zip_with label_at (seq 0 (length dimensions)) rs |};
     fig_tight := true |}.
End Chart.

(* np.random.rand draws from [0, 1). *)
Definition unit_draws (env : Env R) : Prop := forall k : nat, (0 <= draws env k < 1)%R.

(* A machine whose matplotlib does not know the style. *)
Definition env_old_matplotlib : Env R :=
  {| draws := draws_unit; style_library := ∅; writable := fun _ => true; display_ok := true |}.

(** ** Tactics *)

(* Runs the numpy and pyplot calls of the goal; map lookups are left in place. *)
Ltac eval_prims :=
  cbv beta iota zeta delta [bind ret raise plt_subplots new_figure ax_bar update_axes
    ax_set_xticks ax_set_xticklabels ax_set_yscale ax_set_xlabel ax_set_ylabel ax_set_title
    ax_grid_on ax_spine_set_visible ax_annotate annotate_bar for_ plt_tight_layout
    set_figures log set_next_id set_managed set_rcParams set_stdout set_rng_pos set_files
    rng_pos stdout rcParams figures managed next_id files calls
    dimensions length seq repeat zip zip_with negb Nat.eqb fst snd map
    fmap option_fmap option_map with_axes with_tight empty_axes
    fig_axes fig_size fig_dpi fig_rc fig_tight
    bar_x bar_width bar_height bar_color bar_edgecolor bar_linewidth
    ax_bars ax_xticks ax_xticklabels ax_xticklabels_ha ax_yscale ax_xlabel ax_ylabel
    ax_title ax_grid ax_spine_top ax_spine_right ax_annotations].

(* Unfolds the worlds a run goes through, down to their fields. *)
Ltac worlds :=
  cbv beta iota zeta delta [outcome after_close after_show after_save rendered after_sampling
    set_figures log set_next_id set_managed set_rcParams set_stdout set_rng_pos set_files
    rng_pos stdout rcParams figures managed next_id files calls andb negb fst snd] in *.

(** * Properties *)

Lemma Ok_inj {A : Type} (a b : A) : Ok a = Ok b -> a = b.
Proof. intros H. injection H as H. exact H. Qed.

(** ** The condensed distance matrix *)

Section PdistFacts.
Context {F : Type} {FL : Float F}.

Lemma pdist_length_twice (X : list (list F)) :
  2 * length (pdist X) = length X * (length X - 1).
Proof.
  induction X as [|u rest IH]; [reflexivity|].
  cbn [pdist]. rewrite length_app, length_map. cbn [length].
  rewrite Nat.sub_succ, Nat.sub_0_r.
  destruct rest as [|v rest']; [reflexivity|].
  cbn [length] in *. rewrite Nat.sub_succ, Nat.sub_0_r in IH. lia.
Qed.

Lemma pdist_length (X : list (list F)) :
  length (pdist X) = length X * (length X - 1) / 2.
Proof.
  rewrite <- pdist_length_twice, Nat.mul_comm. symmetry. apply Nat.div_mul. lia.
Qed.

Lemma pdist_nonempty (X : list (list F)) : 2 <= length X -> pdist X <> [].
Proof.
  intros HX Hnil. pose proof (pdist_length_twice X) as H.
  rewrite Hnil in H. cbn [length] in H. nia.
Qed.

(* The entries are the distances of the pairs (i, j), i < j. *)
Lemma pdist_elem (X : list (list F)) (d : F) :
  d ∈ pdist X <->
  exists i j u v, i < j /\ X !! i = Some u /\ X !! j = Some v /\ d = euclidean u v.
Proof.
  induction X as [|u rest IH]; cbn [pdist].
  - split; [intros H; inversion H|]. intros (i & j & a & b & _ & H & _). inversion H.
  - rewrite elem_of_app, IH, list_elem_of_fmap. split.
    + intros [(v & -> & Hv)|(i & j & a & b & Hij & Hi & Hj & ->)].
      * apply list_elem_of_lookup in Hv as [j Hj].
        exists 0, (S j), u, v. repeat split; [lia|done..].
      * exists (S i), (S j), a, b. repeat split; [lia|done..].
    + intros (i & j & a & b & Hij & Hi & Hj & ->).
      destruct j as [|j]; [lia|]. cbn in Hj.
      destruct i as [|i]; cbn in Hi.
      * left. inversion Hi; subst. exists b. split; [done|].
        apply list_elem_of_lookup. eauto.
      * right. exists i, j, a, b. repeat split; [lia|done..].
Qed.
End PdistFacts.

(** ** The reducer over the reals *)

Section ReducerR.
Open Scope R_scope.

Lemma eps_R : @eps R _ = 1e-12.
Proof. reflexivity. Qed.

Lemma zero_R : @fdec R _ 0 0 = 0.
Proof. cbn. unfold Rdec. cbn. reflexivity. Qed.

Lemma fold_left_Rplus (l : list R) (a : R) :
  fold_left Rplus l a = a + foldr Rplus 0 l.
Proof.
  revert a. induction l as [|x l IH]; intros a; cbn; [lra|]. rewrite IH. lra.
Qed.

Lemma euclidean_l2 (u v : list R) : euclidean u v = l2_distance u v.
Proof.
  unfold euclidean, l2_distance. cbn [fsqrt fadd Float_R].
  rewrite fold_left_Rplus, zero_R, Rplus_0_l. reflexivity.
Qed.

Lemma euclidean_nonneg (u v : list R) : 0 <= euclidean u v.
Proof. apply sqrt_pos. Qed.

Lemma fminimum_R (a b : R) : fminimum a b = Rmin a b.
Proof.
  unfold fminimum. cbn. unfold Rltb, Rmin.
  destruct (Rlt_dec b a), (Rle_dec a b); try reflexivity; lra.
Qed.

Lemma fmaximum_R (a b : R) : fmaximum a b = Rmax a b.
Proof.
  unfold fmaximum. cbn. unfold Rltb, Rmax.
  destruct (Rlt_dec a b), (Rle_dec a b); try reflexivity; lra.
Qed.

Lemma fold_min_spec (xs : list R) (x : R) :
  fold_left fminimum xs x ∈ x :: xs /\
  forall y, y ∈ x :: xs -> fold_left fminimum xs x <= y.
Proof.
  revert x. induction xs as [|a xs IH]; intros x; cbn [fold_left].
  - split; [left|]. intros y Hy. apply list_elem_of_singleton in Hy. subst. lra.
  - destruct (IH (fminimum x a)) as [Hin Hle]. split.
    + apply elem_of_cons in Hin as [Hin|Hin]; [|do 2 right; exact Hin].
      rewrite Hin, fminimum_R. unfold Rmin.
      destruct (Rle_dec x a); [left|right; left].
    + intros y Hy.
      assert (Hm : fold_left fminimum xs (fminimum x a) <= fminimum x a)
        by (apply Hle; left).
      set (m := fold_left fminimum xs (fminimum x a)) in *.
      rewrite fminimum_R in Hm.
      apply elem_of_cons in Hy as [->|Hy].
      * pose proof (Rmin_l x a). lra.
      * apply elem_of_cons in Hy as [->|Hy].
        -- pose proof (Rmin_r x a). lra.
        -- apply Hle. right. exact Hy.
Qed.

Lemma fold_max_spec (xs : list R) (x : R) :
  fold_left fmaximum xs x ∈ x :: xs /\
  forall y, y ∈ x :: xs -> y <= fold_left fmaximum xs x.
Proof.
  revert x. induction xs as [|a xs IH]; intros x; cbn [fold_left].
  - split; [left|]. intros y Hy. apply list_elem_of_singleton in Hy. subst. lra.
  - destruct (IH (fmaximum x a)) as [Hin Hle]. split.
    + apply elem_of_cons in Hin as [Hin|Hin]; [|do 2 right; exact Hin].
      rewrite Hin, fmaximum_R. unfold Rmax.
      destruct (Rle_dec x a); [right; left|left].
    + intros y Hy.
      assert (Hm : fmaximum x a <= fold_left fmaximum xs (fmaximum x a))
        by (apply Hle; left).
      set (m := fold_left fmaximum xs (fmaximum x a)) in *.
      rewrite fmaximum_R in Hm.
      apply elem_of_cons in Hy as [->|Hy].
      * pose proof (Rmax_l x a). lra.
      * apply elem_of_cons in Hy as [->|Hy].
        -- pose proof (Rmax_r x a). lra.
        -- apply Hle. right. exact Hy.
Qed.

Lemma array_min_spec (d : list R) :
  d <> [] -> exists m, array_min d = Ok m /\ m ∈ d /\ forall y, y ∈ d -> m <= y.
Proof.
  destruct d as [|x xs]; [done|]. intros _. eexists. split; [reflexivity|].
  apply fold_min_spec.
Qed.

Lemma array_max_spec (d : list R) :
  d <> [] -> exists m, array_max d = Ok m /\ m ∈ d /\ forall y, y ∈ d -> y <= m.
Proof.
  destruct d as [|x xs]; [done|]. intros _. eexists. split; [reflexivity|].
  apply fold_max_spec.
Qed.

Lemma truediv_R (x y : R) : y <> 0 -> truediv x y = Ok (x / y).
Proof.
  intros Hy. unfold truediv. cbn [feqb fdiv Float_R]. rewrite zero_R.
  unfold Reqb. destruct (Req_dec_T y 0); [contradiction|reflexivity].
Qed.

(* What the reducer returns on at least two rows. *)
Lemma distance_stats_R (X : list (list R)) :
  (2 <= length X)%nat ->
  exists mn mx,
    distance_stats X = Ok (mn, mx, mx / (mn + 1e-12)) /\
    mn ∈ pdist X /\ mx ∈ pdist X /\
    (forall d, d ∈ pdist X -> mn <= d <= mx) /\ 0 <= mn.
Proof.
  intros HX. pose proof (pdist_nonempty X HX) as Hne.
  destruct (array_min_spec _ Hne) as (mn & Hmn & Hmn_in & Hmn_le).
  destruct (array_max_spec _ Hne) as (mx & Hmx & Hmx_in & Hmx_le).
  assert (H0 : 0 <= mn).
  { apply pdist_elem in Hmn_in as (i & j & u & v & _ & _ & _ & ->).
    apply euclidean_nonneg. }
  exists mn, mx. repeat split; auto.
  unfold distance_stats. rewrite Hmn, Hmx. cbn [rbind].
  cbn [fadd Float_R]. rewrite eps_R, truediv_R by lra. reflexivity.
Qed.

(* No input makes the reducer divide by zero. *)
Lemma distance_stats_no_zero_division (X : list (list R)) :
  distance_stats X <> Raise ZeroDivisionError.
Proof.
  destruct (pdist X) as [|d ds] eqn:Hd.
  - unfold distance_stats. rewrite Hd. cbn. discriminate.
  - assert (Hne : pdist X <> []) by (rewrite Hd; discriminate).
    destruct (array_min_spec _ Hne) as (mn & Hmn & Hmn_in & _).
    destruct (array_max_spec _ Hne) as (mx & Hmx & _).
    apply pdist_elem in Hmn_in as (i & j & u & v & _ & _ & _ & ->).
    pose proof (euclidean_nonneg u v).
    unfold distance_stats. rewrite Hmn, Hmx. cbn [rbind].
    cbn [fadd Float_R]. rewrite eps_R, truediv_R by lra. discriminate.
Qed.
End ReducerR.

Section ReducerClaims.
Open Scope R_scope.

Lemma distance_stats_inv (X : list (list R)) (mn mx r : R) :
  distance_stats X = Ok (mn, mx, r) ->
  mn ∈ pdist X /\ mx ∈ pdist X /\ (forall d, d ∈ pdist X -> mn <= d <= mx) /\
  0 <= mn /\ r = mx / (mn + 1e-12).
Proof.
  intros H. destruct (pdist X) as [|d ds] eqn:Hd.
  - unfold distance_stats in H. rewrite Hd in H. discriminate.
  - assert (Hne : pdist X <> []) by (rewrite Hd; discriminate).
    destruct (array_min_spec _ Hne) as (mn' & Hmn & Hmn_in & Hmn_le).
    destruct (array_max_spec _ Hne) as (mx' & Hmx & Hmx_in & Hmx_le).
    assert (H0 : 0 <= mn').
    { apply pdist_elem in Hmn_in as (i & j & u & v & _ & _ & _ & ->).
      apply euclidean_nonneg. }
    rewrite <- Hd. unfold distance_stats in H. rewrite Hmn, Hmx in H.
    cbn [rbind fadd Float_R] in H. rewrite eps_R, truediv_R in H by lra.
    cbn [rbind] in H. inversion H; subst. repeat split; auto.
Qed.

Lemma pair_distance (X : list (list R)) (d : R) :
  d ∈ pdist X <->
  exists i j u v, (i < j)%nat /\ X !! i = Some u /\ X !! j = Some v /\ d = l2_distance u v.
Proof.
  rewrite pdist_elem. split; intros (i & j & u & v & Hij & Hi & Hj & ->);
    exists i, j, u, v; rewrite ?euclidean_l2, <- ?euclidean_l2; auto.
Qed.

(** C1: on a sample set of N >= 2 vectors the reducer returns (min, max,
    ratio): there are N*(N-1)/2 pairwise distances, one Euclidean distance
    for each unordered pair of rows; min and max are attained by a pair and
    bound the distance of every pair; and ratio = max / (min + 1e-12). *)
Theorem reducer_min_max_ratio (X : list (list R)) :
  (2 <= length X)%nat ->
  exists mn mx,
    distance_stats X = Ok (mn, mx, mx / (mn + 1e-12)) /\
    length (pdist X) = (length X * (length X - 1) / 2)%nat /\
    (forall d, d ∈ pdist X <->
       exists i j u v, (i < j)%nat /\ X !! i = Some u /\ X !! j = Some v /\
                       d = l2_distance u v) /\
    (forall i j u v, (i < j)%nat -> X !! i = Some u -> X !! j = Some v ->
       mn <= l2_distance u v <= mx) /\
    (exists i j u v, (i < j)%nat /\ X !! i = Some u /\ X !! j = Some v /\
                     mn = l2_distance u v) /\
    (exists i j u v, (i < j)%nat /\ X !! i = Some u /\ X !! j = Some v /\
                     mx = l2_distance u v).
Proof.
  intros HX. destruct (distance_stats_R X HX) as (mn & mx & Hst & Hmn & Hmx & Hb & _).
  exists mn, mx. split; [exact Hst|]. split; [apply pdist_length|].
  split; [apply pair_distance|]. split; [|split; apply pair_distance; assumption].
  intros i j u v Hij Hi Hj. apply Hb, pair_distance. eauto 10.
Qed.

(** C2 (amended): whenever the reducer returns, 0 <= min <= max and the
    ratio is max / (min + 1e-12); it is at least 1 exactly when the
    distances spread by at least the guard, max >= min + 1e-12. *)
Theorem ratio_floor (X : list (list R)) (mn mx r : R) :
  distance_stats X = Ok (mn, mx, r) ->
  0 <= mn <= mx /\ r = mx / (mn + 1e-12) /\ 0 <= r /\
  (1 <= r <-> mn + 1e-12 <= mx).
Proof.
  intros H. apply distance_stats_inv in H as (Hmn & Hmx & Hb & H0 & ->).
  pose proof (Hb mx Hmx) as [Hle _].
  assert (Hpos : 0 < mn + 1e-12) by lra.
  split; [lra|]. split; [reflexivity|]. split.
  - apply Rle_mult_inv_pos; lra.
  - split; intros Hr.
    + apply (Rmult_le_compat_r (mn + 1e-12)) in Hr; [|lra].
      unfold Rdiv in Hr. rewrite Rmult_assoc, Rinv_l in Hr by lra. lra.
    + apply (Rmult_le_reg_r (mn + 1e-12)); [lra|].
      unfold Rdiv. rewrite Rmult_assoc, Rinv_l by lra. lra.
Qed.

(** C4: the reducer never divides by zero; when the minimum distance is
    exactly 0 the ratio is max / 1e-12, over the reals and, for the exact
    zero, in binary64 as well. *)
Theorem eps_guard (X : list (list R)) (mn mx r : R) :
  distance_stats X = Ok (mn, mx, r) -> mn = 0 ->
  r = mx / 1e-12 /\
  (forall Y : list (list R), distance_stats Y <> Raise ZeroDivisionError) /\
  (forall (Xb : list (list float)) (mxb : float),
     array_min (pdist Xb) = Ok 0%float -> array_max (pdist Xb) = Ok mxb ->
     distance_stats Xb = Ok (0%float, mxb, PrimFloat.div mxb 1e-12%float)).
Proof.
  intros H Hz. apply distance_stats_inv in H as (_ & _ & _ & _ & ->). subst mn.
  split; [f_equal; lra|]. split; [apply distance_stats_no_zero_division|].
  intros Xb mxb Hmin Hmax. unfold distance_stats. rewrite Hmin, Hmax.
  vm_compute. reflexivity.
Qed.
End ReducerClaims.

(** ** The reducer on two small sample sets *)

Section ReducerExamples.
Open Scope R_scope.

Lemma euclidean_0_0 : euclidean [0] [0] = 0.
Proof.
  rewrite euclidean_l2. unfold l2_distance. cbn.
  replace (0 - 0) with 0 by lra. rewrite Rmult_0_l, Rplus_0_l. apply sqrt_0.
Qed.

Lemma euclidean_0_1 : euclidean [0] [1] = 1.
Proof.
  rewrite euclidean_l2. unfold l2_distance. cbn.
  replace ((0 - 1) * (0 - 1) + 0) with 1 by lra. apply sqrt_1.
Qed.

Lemma Rmin_0_1 : Rmin 0 1 = 0.
Proof. apply Rmin_left. lra. Qed.
Lemma Rmax_0_1 : Rmax 0 1 = 1.
Proof. apply Rmax_right. lra. Qed.

(* Two distinct points: one distance, min = max. *)
Lemma stats_two_points :
  distance_stats [[0]; [1]] = Ok (1, 1, 1 / (1 + 1e-12)).
Proof.
  unfold distance_stats. cbn [pdist map app]. rewrite euclidean_0_1.
  cbn [array_min array_max fold_left rbind fadd Float_R].
  rewrite eps_R, truediv_R by lra. reflexivity.
Qed.

(* A duplicated point: the minimum distance is exactly 0. *)
Lemma stats_duplicate_point :
  distance_stats [[0]; [0]; [1]] = Ok (0, 1, 1 / (0 + 1e-12)).
Proof.
  unfold distance_stats. cbn [pdist map app]. rewrite euclidean_0_1, euclidean_0_0.
  cbn [array_min array_max fold_left rbind fadd Float_R].
  rewrite !fminimum_R, !fmaximum_R, Rmin_0_1, Rmin_0_1, Rmax_0_1.
  rewrite Rmax_left by lra. cbn [rbind]. rewrite eps_R, truediv_R by lra.
  reflexivity.
Qed.

Lemma reducer_min_max_ratio_witness :
  exists mn mx,
    distance_stats [[0]; [0]; [1]] = Ok (mn, mx, mx / (mn + 1e-12)) /\
    length (pdist [[0]; [0]; [1]]) = 3%nat /\
    (forall d, d ∈ pdist [[0]; [0]; [1]] <->
       exists i j u v, (i < j)%nat /\ [[0]; [0]; [1]] !! i = Some u /\
                       [[0]; [0]; [1]] !! j = Some v /\ d = l2_distance u v) /\
    (forall i j u v, (i < j)%nat -> [[0]; [0]; [1]] !! i = Some u ->
       [[0]; [0]; [1]] !! j = Some v -> mn <= l2_distance u v <= mx) /\
    (exists i j u v, (i < j)%nat /\ [[0]; [0]; [1]] !! i = Some u /\
                     [[0]; [0]; [1]] !! j = Some v /\ mn = l2_distance u v) /\
    (exists i j u v, (i < j)%nat /\ [[0]; [0]; [1]] !! i = Some u /\
                     [[0]; [0]; [1]] !! j = Some v /\ mx = l2_distance u v).
Proof.
  apply (reducer_min_max_ratio [[0]; [0]; [1]]). cbn. lia.
Defined.

Lemma ratio_floor_witness :
  distance_stats [[0]; [0]; [1]] = Ok (0, 1, 1 / (0 + 1e-12)) /\
  0 <= 0 <= 1 /\ 1 / (0 + 1e-12) = 1 / (0 + 1e-12) /\ 0 <= 1 / (0 + 1e-12) /\
  (1 <= 1 / (0 + 1e-12) <-> 0 + 1e-12 <= 1).
Proof.
  split; [exact stats_duplicate_point|].
  apply (ratio_floor [[0]; [0]; [1]] 0 1 (1 / (0 + 1e-12))).
  exact stats_duplicate_point.
Defined.

(** C2 fails as written: two distinct points have a single pairwise
    distance, so min = max = 1 and the ratio is 1 / (1 + 1e-12) < 1, over
    the reals and in binary64 alike. *)
Lemma ratio_below_one :
  [0] <> [1] /\
  distance_stats [[0]; [1]] = Ok (1, 1, 1 / (1 + 1e-12)) /\
  1 / (1 + 1e-12) < 1 /\
  distance_stats [[0%float]; [1%float]]
    = Ok (1%float, 1%float, 0.99999999999899991%float) /\
  PrimFloat.ltb 0.99999999999899991%float 1%float = true.
Proof.
  split; [intros H; inversion H; lra|].
  split; [exact stats_two_points|].
  split; [|split; vm_compute; reflexivity].
  apply (Rmult_lt_reg_r (1 + 1e-12)); [lra|].
  unfold Rdiv. rewrite Rmult_assoc, Rinv_l by lra. lra.
Qed.

Lemma eps_guard_witness :
  distance_stats [[0]; [0]; [1]] = Ok (0, 1, 1 / (0 + 1e-12)) /\
  1 / (0 + 1e-12) = 1 / 1e-12 /\
  (forall Y : list (list R), distance_stats Y <> Raise ZeroDivisionError) /\
  (forall (Xb : list (list float)) (mxb : float),
     array_min (pdist Xb) = Ok 0%float -> array_max (pdist Xb) = Ok mxb ->
     distance_stats Xb = Ok (0%float, mxb, PrimFloat.div mxb 1e-12%float)).
Proof.
  split; [exact stats_duplicate_point|].
  apply (eps_guard [[0]; [0]; [1]] 0 1 (1 / (0 + 1e-12)));
    [exact stats_duplicate_point | reflexivity].
Defined.

(* The same duplicated point in binary64. *)
Example b64_duplicate_point :
  distance_stats [[0%float]; [0%float]; [1%float]]
    = Ok (0%float, 1%float, 1000000000000%float).
Proof. vm_compute. reflexivity. Qed.

Example b64_eps : @eps float _ = 1e-12%float.
Proof. vm_compute. reflexivity. Qed.
End ReducerExamples.

(** ** Sampling: what the loop leaves behind *)

Section Sampling.
Context {F : Type} {FL : Float F}.
Variable env : Env F.

Lemma sampled_length pos dims ts : sampled env pos dims ts -> length ts = length dims.
Proof.
  revert pos ts. induction dims as [|d dims IH]; intros pos [|t ts]; cbn [sampled length];
    try tauto.
  intros [_ H]. f_equal. eauto.
Qed.

Lemma sampled_lookup pos dims ts i d :
  sampled env pos dims ts -> dims !! i = Some d ->
  exists t, ts !! i = Some t /\
    distance_stats (rand_matrix env (pos + 1000 * sum_list (take i dims)) 1000 d) = Ok t.
Proof.
  revert pos ts i. induction dims as [|d0 dims IH]; intros pos [|t ts] i;
    cbn [sampled]; try tauto; try discriminate.
  intros [Ht Hrest] Hi. destruct i as [|i].
  - inversion Hi; subst. exists t. split; [reflexivity|].
    cbn [take sum_list]. rewrite Nat.mul_0_r, Nat.add_0_r. exact Ht.
  - destruct (IH _ _ _ Hrest Hi) as (t' & Hl & Hs). exists t'. split; [exact Hl|].
    cbn [take sum_list]. rewrite Nat.mul_add_distr_l, Nat.add_assoc. exact Hs.
Qed.

(* The loop touches the random source and the console, nothing else; when
   it completes, it has appended one triple and one line per dimension. *)
Lemma loop_spec (dims : list nat) (acc : Stats) (w : World F) :
  match for_each dims (loop_body env) acc w with
  | (Ok st, w1) =>
      exists ts, sampled env (rng_pos w) dims ts /\ st = extend acc ts /\
        w1 = set_stdout (stdout w ++ reports dims ts)
               (set_rng_pos (rng_pos w + 1000 * sum_list dims) w)
  | (Raise e, w1) => exists out pos, w1 = set_stdout out (set_rng_pos pos w)
  end.
Proof.
  revert acc w. induction dims as [|d dims IH]; intros acc w.
  - cbn [for_each]. unfold ret. exists []. split; [exact I|]. split.
    + unfold extend. cbn [map]. rewrite !app_nil_r. destruct acc; reflexivity.
    + unfold reports. cbn [zip_with sum_list]. rewrite app_nil_r, Nat.mul_0_r, Nat.add_0_r.
      destruct w; reflexivity.
  - cbn [for_each]. unfold bind at 1. unfold loop_body at 1.
    unfold bind at 1. unfold np_random_rand at 1. unfold bind at 1. unfold lift at 1.
    destruct (distance_stats (rand_matrix env (rng_pos w) 1000 d)) as [[[mn mx] r]|e] eqn:Hs.
    2:{ exists (stdout w), (rng_pos w + 1000 * d). destruct w; reflexivity. }
    unfold bind at 1. unfold print at 1. unfold ret at 1.
    match goal with |- context [for_each dims _ ?a ?w'] =>
      specialize (IH a w'); destruct (for_each dims (loop_body env) a w') as [[st|e] w1]
    end.
    + destruct IH as (ts & Hts & -> & ->). exists ((mn, mx, r) :: ts).
      split; [split; [exact Hs|exact Hts]|]. split.
      * unfold extend. cbn [ratios min_dists max_dists map fst snd].
        rewrite <- !app_assoc. reflexivity.
      * unfold reports. cbn [zip_with sum_list fst snd set_stdout set_rng_pos rng_pos stdout].
        rewrite <- app_assoc, Nat.mul_add_distr_l, Nat.add_assoc. reflexivity.
    + destruct IH as (out & pos & ->). exists out, pos. reflexivity.
Qed.

Lemma stats_of_inj (ts ts' : list (F * F * F)) : stats_of ts = stats_of ts' -> ts = ts'.
Proof.
  revert ts'. induction ts as [|[[a b] c] ts IH]; intros [|[[a' b'] c'] ts'] H;
    unfold stats_of in H; cbn [map fst snd] in H; try discriminate H; [reflexivity|].
  injection H as Hc Hr Ha Hmn Hb Hmx. subst. f_equal. apply IH.
  unfold stats_of. rewrite Hr, Hmn, Hmx. reflexivity.
Qed.

Lemma sample_all_spec (w : World F) :
  match sample_all env w with
  | (Ok st, w1) =>
      exists ts, sampled env (rng_pos w) dimensions ts /\
        st = stats_of ts /\ w1 = after_sampling ts w
  | (Raise e, w1) => exists out pos, w1 = set_stdout out (set_rng_pos pos w)
  end.
Proof.
  pose proof (loop_spec dimensions {| ratios := []; min_dists := []; max_dists := [] |} w)
    as H.
  unfold sample_all. destruct (for_each _ _ _ _) as [[st|e] w1]; [|exact H].
  destruct H as (ts & Hts & -> & ->). exists ts. split; [exact Hts|]. split; reflexivity.
Qed.
End Sampling.

(** ** Rendering *)

Section Rendering.
Context {F : Type} {FL : Float F}.
Variable env : Env F.

Lemma render_unknown_style (rs : list F) (w : World F) :
  style_library env !! "seaborn-v0_8"%string = None ->
  render env rs w = (Raise (OSError "seaborn-v0_8"), w).
Proof.
  intros Hs. unfold render, bind at 1. unfold plt_style_use at 1. rewrite Hs. reflexivity.
Qed.

Lemma render_ok (s : gmap string string) (rs : list F) (w : World F) :
  style_library env !! "seaborn-v0_8"%string = Some s ->
  length rs = 6 ->
  exists fg,
    render env rs w = (Ok (next_id w, next_id w), rendered s fg w) /\
    map bar_height (ax_bars (fig_axes fg)) = rs /\
    ax_xticks (fig_axes fg) = seq 0 6 /\
    ax_xticklabels (fig_axes fg) = map (fun d : nat => pretty d) dimensions /\
    fig_rc fg = s ∪ rcParams w.
Proof.
  intros Hs Hlen.
  destruct rs as [|r0 [|r1 [|r2 [|r3 [|r4 [|r5 [|]]]]]]]; try discriminate.
  destruct w as [pos out rc figs mgd nid fls cls].
  unfold render, bind at 1. unfold plt_style_use at 1. rewrite Hs.
  eexists. split.
  { eval_prims. rewrite !lookup_alter_eq, lookup_insert_eq.
    eval_prims. rewrite last_snoc.
    eval_prims. rewrite !alter_insert_eq.
    unfold rendered. eval_prims. rewrite <- (app_assoc cls). reflexivity. }
  cbn. auto.
Qed.
End Rendering.

(** ** Saving, showing, closing *)

Section Finishing.
Context {F : Type} {FL : Float F}.
Variable env : Env F.

(* The four ways out of lines 81-89, for a figure that exists. *)
Lemma finish_spec (fig ax : nat) (fg : Figure F) (save_path : option string)
    (show : bool) (w : World F) :
  figures w !! fig = Some fg ->
  finish env fig ax save_path show w =
    let p := default ""%string save_path in
    if truthy save_path && negb (writable env p) then (Raise (OSError p), w)
    else
      let w1 := if truthy save_path then after_save fig fg p w else w in
      if show && negb (display_ok env) then (Raise DisplayError, w1)
      else
        let w2 := if show then after_show w1 else w1 in
        (Ok (fig, ax), after_close fig w2).
Proof.
  intros Hfg. unfold finish, after_save, after_show, after_close.
  destruct w as [pos out rc figs mgd nid fls cls]. cbn [figures] in Hfg.
  unfold bind, fig_savefig, print, plt_show, plt_close, ret.
  destruct (truthy save_path), (writable env (default ""%string save_path)),
    show, (display_ok env); cbn [andb negb figures]; rewrite ?Hfg; reflexivity.
Qed.
End Finishing.

(** ** The whole run *)

Section Run.
Context {F : Type} {FL : Float F}.
Variable env : Env F.

Lemma exp_spec (save_path : option string) (show : bool) (w : World F) :
  match sample_all env w with
  | (Raise e, w1) => exp_curse_of_dimensionality env save_path show w = (Raise e, w1)
  | (Ok st, w1) =>
      match style_library env !! "seaborn-v0_8"%string with
      | None =>
          exp_curse_of_dimensionality env save_path show w
            = (Raise (OSError "seaborn-v0_8"), w1)
      | Some s =>
          exists fg,
            exp_curse_of_dimensionality env save_path show w
              = finish env (next_id w) (next_id w) save_path show (rendered s fg w1) /\
            map bar_height (ax_bars (fig_axes fg)) = ratios st /\
            ax_xticks (fig_axes fg) = seq 0 6 /\
            ax_xticklabels (fig_axes fg) = map (fun d : nat => pretty d) dimensions /\
            fig_rc fg = s ∪ rcParams w
      end
  end.
Proof.
  unfold exp_curse_of_dimensionality.
  pose proof (sample_all_spec env w) as Hsam.
  destruct (sample_all env w) as [[st|e] w1] eqn:Hsa.
  2:{ unfold bind at 1. rewrite Hsa. reflexivity. }
  destruct Hsam as (ts & Hts & Hst & Hw1).
  assert (Hlen : length (ratios st) = 6).
  { rewrite Hst. unfold stats_of. cbn [ratios]. rewrite length_map. apply (sampled_length _ _ _ _ Hts). }
  assert (Hid : next_id w1 = next_id w) by (rewrite Hw1; reflexivity).
  assert (Hrc : rcParams w1 = rcParams w) by (rewrite Hw1; reflexivity).
  destruct (style_library env !! "seaborn-v0_8"%string) as [s|] eqn:Hs.
  - destruct (render_ok env s (ratios st) w1 Hs Hlen) as (fg & Hr & Hb & Ht & Hl & Hf).
    exists fg. unfold bind at 1. rewrite Hsa. unfold bind at 1. rewrite Hr.
    cbn [fst snd]. rewrite Hid, <- Hrc. auto.
  - unfold bind at 1. rewrite Hsa. unfold bind at 1.
    rewrite (render_unknown_style env _ _ Hs). reflexivity.
Qed.
(* Every run is of one of three kinds. *)
Lemma exp_outcome (save_path : option string) (show : bool) (w : World F) :
  (exists e out pos,
      sample_all env w = (Raise e, set_stdout out (set_rng_pos pos w)) /\
      exp_curse_of_dimensionality env save_path show w
        = (Raise e, set_stdout out (set_rng_pos pos w))) \/
  (exists ts,
      sampled env (rng_pos w) dimensions ts /\
      sample_all env w = (Ok (stats_of ts), after_sampling ts w) /\
      style_library env !! "seaborn-v0_8"%string = None /\
      exp_curse_of_dimensionality env save_path show w
        = (Raise (OSError "seaborn-v0_8"), after_sampling ts w)) \/
  (exists ts s fg,
      sampled env (rng_pos w) dimensions ts /\
      sample_all env w = (Ok (stats_of ts), after_sampling ts w) /\
      style_library env !! "seaborn-v0_8"%string = Some s /\
      map bar_height (ax_bars (fig_axes fg)) = map snd ts /\
      ax_xticks (fig_axes fg) = seq 0 6 /\
      ax_xticklabels (fig_axes fg) = map (fun d : nat => pretty d) dimensions /\
      fig_rc fg = s ∪ rcParams w /\
      exp_curse_of_dimensionality env save_path show w
        = outcome env (next_id w) fg save_path show (rendered s fg (after_sampling ts w))).
Proof.
  pose proof (exp_spec save_path show w) as Hexp.
  pose proof (sample_all_spec env w) as Hsam.
  destruct (sample_all env w) as [[st|e] w1].
  - destruct Hsam as (ts & Hts & -> & ->). right.
    destruct (style_library env !! "seaborn-v0_8"%string) as [s|].
    + right. destruct Hexp as (fg & Hexp & Hb & Ht & Hl & Hf).
      exists ts, s, fg. repeat (split; [done|]).
      rewrite Hexp. apply finish_spec.
      unfold rendered. cbn [figures]. apply lookup_insert_eq.
    + left. exists ts. auto.
  - left. destruct Hsam as (out & pos & ->). eauto.
Qed.
End Run.

(** ** Over the reals, sampling always completes *)

Section SamplingR.
Variable env : Env R.

Lemma rand_matrix_length (pos rows cols : nat) :
  length (rand_matrix env pos rows cols) = rows.
Proof. unfold rand_matrix. rewrite length_map. apply length_seq. Qed.

Lemma loop_completes (dims : list nat) (acc : Stats) (w : World R) :
  exists st w1, for_each dims (loop_body env) acc w = (Ok st, w1).
Proof.
  revert acc w. induction dims as [|d dims IH]; intros acc w.
  - cbn [for_each]. unfold ret. eauto.
  - cbn [for_each]. unfold bind at 1. unfold loop_body at 1.
    unfold bind at 1. unfold np_random_rand at 1. unfold bind at 1. unfold lift at 1.
    destruct (distance_stats_R (rand_matrix env (rng_pos w) 1000 d))
      as (mn & mx & Hst & _).
    { rewrite rand_matrix_length. lia. }
    rewrite Hst. unfold bind at 1. unfold print at 1. unfold ret at 1. apply IH.
Qed.

Lemma sample_all_eq (w : World R) :
  sample_all env w
    = for_each dimensions (loop_body env) {| ratios := []; min_dists := []; max_dists := [] |} w.
Proof. reflexivity. Qed.

Lemma sample_all_completes (w : World R) :
  exists ts,
    sampled env (rng_pos w) dimensions ts /\
    sample_all env w = (Ok (stats_of ts), after_sampling ts w).
Proof.
  destruct (loop_completes dimensions {| ratios := []; min_dists := []; max_dists := [] |} w)
    as (st & w1 & Hloop).
  pose proof (sample_all_spec env w) as Hsam.
  rewrite <- sample_all_eq in Hloop. rewrite Hloop in Hsam |- *.
  destruct Hsam as (ts & Hts & Hst & Hw1). exists ts. split; [exact Hts|].
  rewrite Hst, Hw1. reflexivity.
Qed.

(* So a run over the reals stops at the style, or goes on to lines 81-89. *)
Lemma exp_outcome_R (save_path : option string) (show : bool) (w : World R) :
  exists ts,
    sampled env (rng_pos w) dimensions ts /\
    match style_library env !! "seaborn-v0_8"%string with
    | None =>
        exp_curse_of_dimensionality env save_path show w
          = (Raise (OSError "seaborn-v0_8"), after_sampling ts w)
    | Some s =>
        exists fg,
          map bar_height (ax_bars (fig_axes fg)) = map snd ts /\
          exp_curse_of_dimensionality env save_path show w
            = outcome env (next_id w) fg save_path show
                (rendered s fg (after_sampling ts w))
    end.
Proof.
  destruct (sample_all_completes w) as (ts & Hts & Hsa).
  exists ts. split; [exact Hts|].
  destruct (exp_outcome env save_path show w)
    as [(e & out & pos & Hsa' & _)|[(ts' & Hts' & Hsa' & Hs & Hexp)
       |(ts' & s & fg & Hts' & Hsa' & Hs & Hb & _ & _ & _ & Hexp)]];
    rewrite Hsa in Hsa'.
  - apply pair_equal_spec in Hsa' as [Hr _]. discriminate Hr.
  - apply pair_equal_spec in Hsa' as [Hst _].
    apply Ok_inj, stats_of_inj in Hst as ->. rewrite Hs. exact Hexp.
  - apply pair_equal_spec in Hsa' as [Hst _].
    apply Ok_inj, stats_of_inj in Hst as ->. rewrite Hs. exists fg. auto.
Qed.

(* Each of the six samples has N = 1000 rows, hence N * (N - 1) / 2 pairs. *)
Lemma reducer_on_each_sample (pos dim : nat) :
  exists mn mx,
    distance_stats (rand_matrix env pos 1000 dim) = Ok (mn, mx, (mx / (mn + 1e-12))%R) /\
    length (pdist (rand_matrix env pos 1000 dim)) = 1000 * (1000 - 1) / 2.
Proof.
  destruct (distance_stats_R (rand_matrix env pos 1000 dim)) as (mn & mx & Hst & _).
  { rewrite rand_matrix_length. lia. }
  exists mn, mx. split; [exact Hst|].
  rewrite pdist_length, rand_matrix_length. reflexivity.
Qed.
End SamplingR.

(** ** What a run does to the figure, the style, the files and the console *)

Section RunClaims.
Context {F : Type} {FL : Float F}.
Variable env : Env F.

Lemma filter_out_new (fig : nat) (l : list nat) :
  filter (fun i => i ≠ fig) (l ++ [fig]) = filter (fun i => i ≠ fig) l.
Proof.
  rewrite filter_app, filter_cons_False, filter_nil, app_nil_r by (intros H; exact (H eq_refl)).
  reflexivity.
Qed.

Lemma not_in_filter_out (fig : nat) (l : list nat) : fig ∉ filter (fun i => i ≠ fig) l.
Proof. intros [H _]%list_elem_of_filter. exact (H eq_refl). Qed.

(** C10: when the run returns normally, the figure it hands back has
    already been closed: the last pyplot call was close on that very
    figure, it is no longer among the open figures, and the object (made
    by this run's subplots call) still exists for inspection. *)
Theorem returned_figure_is_closed (save_path : option string) (show : bool)
    (w w' : World F) (fig ax : nat) :
  exp_curse_of_dimensionality env save_path show w = (Ok (fig, ax), w') ->
  last (calls w') = Some (Close fig) /\
  (fig ∉ managed w') /\
  Subplots fig ∈ calls w' /\
  is_Some (figures w' !! fig) /\
  ax = fig.
Proof.
  intros Hrun.
  destruct (exp_outcome env save_path show w)
    as [(e & out & pos & _ & H)|[(ts & _ & _ & _ & H)|(ts & s & fg & _ & _ & _ & _ & _ & _ & _ & H)]];
    rewrite H in Hrun; clear H.
  1,2: apply pair_equal_spec in Hrun as [Hr _]; discriminate Hr.
  destruct w as [pos out rc figs mgd nid fls cls].
  unfold outcome in Hrun. cbv zeta in Hrun.
  destruct (truthy save_path), (writable env (default ""%string save_path)), show,
    (display_ok env); worlds; apply pair_equal_spec in Hrun as [Hr Hw];
    try discriminate Hr; injection Hr as <- <-; subst w'; worlds.
  all: (split; [apply last_snoc|]); (split; [apply not_in_filter_out|]);
    (split; [|split; [rewrite lookup_insert_eq; eauto|reflexivity]]);
    rewrite !elem_of_app, !list_elem_of_In; cbn [In]; tauto.
Qed.

(** C3 (amended): on every exit path on which neither savefig nor show
    raises (each succeeds or is skipped), the run leaves no figure of its
    own open: either it returned the figure, closed by its last pyplot
    call, or it raised before making one. *)
Theorem figure_released_unless_save_or_show_raises (save_path : option string)
    (show : bool) (w : World F) :
  truthy save_path = false \/ writable env (default ""%string save_path) = true ->
  show = false \/ display_ok env = true ->
  (exists fig w',
      exp_curse_of_dimensionality env save_path show w = (Ok (fig, fig), w') /\
      last (calls w') = Some (Close fig) /\
      (fig ∉ managed w') /\
      managed w' = filter (fun i => i ≠ fig) (managed w)) \/
  (exists e w',
      exp_curse_of_dimensionality env save_path show w = (Raise e, w') /\
      managed w' = managed w /\ figures w' = figures w /\ calls w' = calls w).
Proof.
  intros Hsave Hshow.
  destruct (exp_outcome env save_path show w)
    as [(e & out & pos & _ & H)|[(ts & _ & _ & _ & H)|(ts & s & fg & _ & _ & _ & _ & _ & _ & _ & H)]];
    rewrite H; clear H.
  1,2: right; eexists _, _; split; [reflexivity|]; destruct w; worlds; auto.
  left. destruct w as [pos out rc figs mgd nid fls cls].
  unfold outcome. cbv zeta.
  destruct (truthy save_path), (writable env (default ""%string save_path)), show,
    (display_ok env); worlds;
    try (destruct Hsave; discriminate); try (destruct Hshow; discriminate).
  all: eexists _, _; split; [reflexivity|]; worlds;
    (split; [apply last_snoc|]); split; [apply not_in_filter_out|apply filter_out_new].
Qed.

(* The other exit paths: savefig or show raises, and the figure stays open. *)
Lemma figure_left_open (save_path : option string) (show : bool) (w : World F)
    (ts : list (F * F * F)) (s : gmap string string) :
  sample_all env w = (Ok (stats_of ts), after_sampling ts w) ->
  style_library env !! "seaborn-v0_8"%string = Some s ->
  (truthy save_path = true /\ writable env (default ""%string save_path) = false) \/
  (show = true /\ display_ok env = false) ->
  exists e w',
    exp_curse_of_dimensionality env save_path show w = (Raise e, w') /\
    next_id w ∈ managed w' /\
    (Close (next_id w) ∈ calls w' -> Close (next_id w) ∈ calls w).
Proof.
  intros Hsam Hstyle Hfail.
  destruct (exp_outcome env save_path show w)
    as [(e & out & pos & Hsa & _)|[(ts' & _ & _ & Hs & _)|(ts' & s' & fg & _ & _ & _ & _ & _ & _ & _ & H)]].
  - rewrite Hsam in Hsa. apply pair_equal_spec in Hsa as [Hr _]. discriminate Hr.
  - rewrite Hstyle in Hs. discriminate Hs.
  - rewrite H. clear H. destruct w as [pos out rc figs mgd nid fls cls].
    unfold outcome. cbv zeta.
    destruct (truthy save_path), (writable env (default ""%string save_path)), show,
      (display_ok env); worlds;
      try (destruct Hfail as [[? ?]|[? ?]]; discriminate).
    all: eexists _, _; split; [reflexivity|]; worlds;
      rewrite ?elem_of_app, ?list_elem_of_In; cbn [In];
        (split; [tauto|]); intros Hin; repeat destruct Hin as [Hin|Hin];
        try discriminate; try contradiction; assumption.
Qed.
End RunClaims.

Section RunClaimsState.
Context {F : Type} {FL : Float F}.
Variable env : Env F.

(** C6 (amended): the style is applied process-wide and is not undone:
    after a run that returns, rcParams are the settings of seaborn-v0_8
    laid over the rcParams from before the call; they are unchanged only
    when those settings were already in effect. *)
Theorem style_persists (save_path : option string) (show : bool)
    (w w' : World F) (fa : nat * nat) :
  exp_curse_of_dimensionality env save_path show w = (Ok fa, w') ->
  exists s,
    style_library env !! "seaborn-v0_8"%string = Some s /\
    rcParams w' = s ∪ rcParams w /\
    (rcParams w' = rcParams w <-> s ⊆ rcParams w).
Proof.
  intros Hrun.
  destruct (exp_outcome env save_path show w)
    as [(e & out & pos & _ & H)|[(ts & _ & _ & _ & H)|(ts & s & fg & _ & _ & Hs & _ & _ & _ & _ & H)]];
    rewrite H in Hrun; clear H.
  1,2: apply pair_equal_spec in Hrun as [Hr _]; discriminate Hr.
  exists s. split; [exact Hs|].
  assert (Hrc : rcParams w' = s ∪ rcParams w).
  { destruct w as [pos out rc figs mgd nid fls cls].
    unfold outcome in Hrun. cbv zeta in Hrun.
    destruct (truthy save_path), (writable env (default ""%string save_path)), show,
      (display_ok env); worlds; apply pair_equal_spec in Hrun as [Hr Hw];
      try discriminate Hr; subst w'; reflexivity. }
  split; [exact Hrc|]. rewrite Hrc. split.
  - intros Heq. rewrite <- Heq. apply map_union_subseteq_l.
  - intros Hsub. apply map_subseteq_union, Hsub.
Qed.

End RunClaimsState.

Section RunClaimsOutput.
Context {F : Type} {FL : Float F}.
Variable env : Env F.

Lemma shown_app (cs ds : list call) : shown (cs ++ ds) = shown cs ++ shown ds.
Proof. apply omap_app. Qed.

(** C8: the program's entry point runs exp_curse_of_dimensionality(None,
    True); with show false nothing is presented on any exit path, and with
    show true a run that returns has presented the open figures, the chart
    among them, exactly once. *)
Theorem entry_point_and_show (save_path : option string) (w : World F) :
  call_exp env None None = exp_curse_of_dimensionality env None true /\
  main env w = (let (r, w') := exp_curse_of_dimensionality env None true w in
                (rbind r (fun _ => Ok tt), w')) /\
  shown (calls (snd (exp_curse_of_dimensionality env save_path false w)))
    = shown (calls w) /\
  (forall fa w',
     exp_curse_of_dimensionality env save_path true w = (Ok fa, w') ->
     shown (calls w') = shown (calls w) ++ [managed w ++ [fst fa]]).
Proof.
  split; [reflexivity|]. split.
  { unfold main, bind, call_exp, default_save_path, default_show, ret.
    change (default None None) with (@None string).
    change (default true None) with true.
    destruct (exp_curse_of_dimensionality env None true w) as [[fa|e] w']; reflexivity. }
  split.
  - destruct (exp_outcome env save_path false w)
      as [(e & out & pos & _ & H)|[(ts & _ & _ & _ & H)|(ts & s & fg & _ & _ & _ & _ & _ & _ & _ & H)]];
      rewrite H; clear H.
    1,2: destruct w; reflexivity.
    destruct w as [pos out rc figs mgd nid fls cls].
    unfold outcome. cbv zeta.
    destruct (truthy save_path), (writable env (default ""%string save_path));
      worlds; rewrite ?shown_app; cbn [shown omap list_omap]; rewrite ?app_nil_r; reflexivity.
  - intros fa w' Hrun.
    destruct (exp_outcome env save_path true w)
      as [(e & out & pos & _ & H)|[(ts & _ & _ & _ & H)|(ts & s & fg & _ & _ & _ & _ & _ & _ & _ & H)]];
      rewrite H in Hrun; clear H.
    1,2: apply pair_equal_spec in Hrun as [Hr _]; discriminate Hr.
    destruct w as [pos out rc figs mgd nid fls cls].
    unfold outcome in Hrun. cbv zeta in Hrun.
    destruct (truthy save_path), (writable env (default ""%string save_path)),
      (display_ok env); worlds; apply pair_equal_spec in Hrun as [Hr Hw];
      try discriminate Hr; injection Hr as <-; subst w'; worlds.
    all: rewrite ?shown_app; cbn [shown omap list_omap]; rewrite ?app_nil_r; reflexivity.
Qed.

Lemma reports_lookup (dims : list nat) (ts : list (F * F * F)) (i dim : nat)
    (mn mx r : F) :
  dims !! i = Some dim -> ts !! i = Some (mn, mx, r) ->
  reports dims ts !! i = Some (report dim mn mx r).
Proof.
  intros Hd Ht. unfold reports. rewrite lookup_zip_with, Hd. cbn. rewrite Ht. reflexivity.
Qed.

(** C9: a run that returns has printed, after what was on the console,
    one line per dimension, in list order, each reporting the dimension
    and the minimum, the maximum and the ratio of that dimension's sample,
    min and max (and the ratio) under a format of 6 significant digits;
    the only other line is the one that follows a save. *)
Theorem one_report_per_dimension (save_path : option string) (show : bool)
    (w w' : World F) (fa : nat * nat) :
  exp_curse_of_dimensionality env save_path show w = (Ok fa, w') ->
  exists ts,
    sampled env (rng_pos w) dimensions ts /\
    length (reports dimensions ts) = length dimensions /\
    stdout w' = stdout w ++ reports dimensions ts ++
                (if truthy save_path
                 then [[Lit "Saved plot to "; FmtStr (default ""%string save_path)]]
                 else []) /\
    significant_digits g6 = 6 /\
    forall i dim, dimensions !! i = Some dim ->
      exists mn mx r,
        ts !! i = Some (mn, mx, r) /\
        reports dimensions ts !! i
          = Some [Lit "Dimension: "; FmtInt dim;
                  Lit ", Min Distance: "; FmtFloat g6 mn;
                  Lit ", Max Distance: "; FmtFloat g6 mx;
                  Lit ", Ratio (Max/Min): "; FmtFloat g6 r].
Proof.
  intros Hrun.
  destruct (exp_outcome env save_path show w)
    as [(e & out & pos & _ & H)|[(ts & _ & _ & _ & H)|(ts & s & fg & Hts & _ & _ & _ & _ & _ & _ & H)]];
    rewrite H in Hrun; clear H.
  1,2: apply pair_equal_spec in Hrun as [Hr _]; discriminate Hr.
  exists ts. split; [exact Hts|].
  pose proof (sampled_length _ _ _ _ Hts) as Hlen.
  split. { unfold reports. rewrite length_zip_with, Hlen. apply Nat.min_id. }
  split.
  { destruct w as [pos out rc figs mgd nid fls cls].
    unfold outcome in Hrun. cbv zeta in Hrun.
    destruct (truthy save_path), (writable env (default ""%string save_path)), show,
      (display_ok env); worlds; apply pair_equal_spec in Hrun as [Hr Hw];
      try discriminate Hr; subst w'; worlds; rewrite <- ?app_assoc, ?app_nil_r; reflexivity. }
  split; [reflexivity|].
  intros i dim Hd.
  destruct (sampled_lookup _ _ _ _ _ _ Hts Hd) as ([[mn mx] r] & Ht & _).
  exists mn, mx, r. split; [exact Ht|]. apply (reports_lookup _ _ _ _ _ _ _ Hd Ht).
Qed.

(** C5: when sampling completes, the result sequence has one ratio per
    entry of the dimension list [2; 3; 192; 384; 768; 1536], six in all,
    and the ratio (and min and max) at index i is the reducer's result on
    the sample drawn for the dimension at index i; the chart then has its
    i-th bar as high as the i-th ratio, labelled with the i-th dimension. *)
Theorem ratios_aligned_with_dimensions (w w1 : World F) (st : Stats) :
  sample_all env w = (Ok st, w1) ->
  dimensions = [2; 3; 192; 384; 768; 1536] /\
  length (ratios st) = length dimensions /\ length dimensions = 6 /\
  (forall i dim, dimensions !! i = Some dim ->
     exists mn mx r,
       distance_stats
         (rand_matrix env (rng_pos w + 1000 * sum_list (take i dimensions)) 1000 dim)
         = Ok (mn, mx, r) /\
       ratios st !! i = Some r /\ min_dists st !! i = Some mn /\
       max_dists st !! i = Some mx) /\
  (forall save_path show fa w',
     exp_curse_of_dimensionality env save_path show w = (Ok fa, w') ->
     exists fg,
       figures w' !! fst fa = Some fg /\
       map bar_height (ax_bars (fig_axes fg)) = ratios st /\
       ax_xticks (fig_axes fg) = seq 0 (length dimensions) /\
       ax_xticklabels (fig_axes fg) = map (fun d : nat => pretty d) dimensions).
Proof.
  intros Hsam. pose proof (sample_all_spec env w) as Hspec. rewrite Hsam in Hspec.
  destruct Hspec as (ts & Hts & -> & ->).
  pose proof (sampled_length _ _ _ _ Hts) as Hlen.
  split; [reflexivity|]. split.
  { unfold stats_of. cbn [ratios]. rewrite length_map. exact Hlen. }
  split; [reflexivity|]. split.
  - intros i dim Hd.
    destruct (sampled_lookup _ _ _ _ _ _ Hts Hd) as ([[mn mx] r] & Ht & Hst).
    exists mn, mx, r. split; [exact Hst|].
    unfold stats_of. cbn [ratios min_dists max_dists].
    rewrite !list_lookup_fmap, Ht. auto.
  - intros save_path show fa w' Hrun.
    destruct (exp_outcome env save_path show w)
      as [(e & out & pos & _ & H)|[(ts' & _ & _ & _ & H)
         |(ts' & s & fg & _ & Hsa & _ & Hb & Hxt & Hxl & _ & H)]];
      rewrite H in Hrun; clear H.
    1,2: apply pair_equal_spec in Hrun as [Hr _]; discriminate Hr.
    rewrite Hsam in Hsa. apply pair_equal_spec in Hsa as [Hst _].
    injection Hst as Hr _ _.
    exists fg. rewrite Hb, <- Hr, Hxt, Hxl.
    split; [|split; [reflexivity|split; reflexivity]].
    destruct w as [pos out rc figs mgd nid fls cls].
    unfold outcome in Hrun. cbv zeta in Hrun.
    destruct (truthy save_path), (writable env (default ""%string save_path)), show,
      (display_ok env); worlds; apply pair_equal_spec in Hrun as [Hr' Hw];
      try discriminate Hr'; injection Hr' as <-; subst w'; worlds; apply lookup_insert_eq.
Qed.
End RunClaimsOutput.

(** ** Runs on the three machines *)

Section Scenarios.
Lemma run_R (env : Env R) (s : gmap string string) (save_path : option string)
    (show : bool) (w : World R) :
  style_library env !! "seaborn-v0_8"%string = Some s ->
  exists ts fg,
    sampled env (rng_pos w) dimensions ts /\
    exp_curse_of_dimensionality env save_path show w
      = outcome env (next_id w) fg save_path show (rendered s fg (after_sampling ts w)).
Proof.
  intros Hs. destruct (exp_outcome_R env save_path show w) as (ts & Hts & H).
  rewrite Hs in H. destruct H as (fg & _ & H). eauto.
Qed.

Lemma desktop_style : style_library env_desktop !! "seaborn-v0_8"%string = Some seaborn_v0_8.
Proof. apply lookup_singleton_eq. Qed.
Lemma readonly_style : style_library env_readonly !! "seaborn-v0_8"%string = Some seaborn_v0_8.
Proof. apply lookup_singleton_eq. Qed.
Lemma headless_style : style_library env_headless !! "seaborn-v0_8"%string = Some seaborn_v0_8.
Proof. apply lookup_singleton_eq. Qed.

(* On the desktop every call returns the figure it made. *)
Lemma desktop_returns (save_path : option string) (show : bool) :
  exists w',
    exp_curse_of_dimensionality env_desktop save_path show w_fresh = (Ok (0, 0), w').
Proof.
  destruct (run_R env_desktop _ save_path show w_fresh desktop_style) as (ts & fg & _ & H).
  rewrite H. unfold outcome. cbv zeta.
  cbn [writable display_ok env_desktop negb]. rewrite !andb_false_r. eauto.
Qed.

(** C3 fails as written: where savefig raises (nowhere to write), or show
    raises (no display), the exception leaves the run before plt.close:
    the figure it made, number 0, is still open and no close was called. *)
Lemma figure_left_open_on_error :
  (exists w',
      exp_curse_of_dimensionality env_readonly (Some "plot.png"%string) false w_fresh
        = (Raise (OSError "plot.png"), w') /\
      managed w' = [0] /\
      calls w' = [StyleUse "seaborn-v0_8"; Subplots 0]) /\
  (exists w',
      exp_curse_of_dimensionality env_headless None true w_fresh
        = (Raise DisplayError, w') /\
      managed w' = [0] /\
      calls w' = [StyleUse "seaborn-v0_8"; Subplots 0]).
Proof.
  split.
  - destruct (run_R env_readonly _ (Some "plot.png"%string) false w_fresh readonly_style)
      as (ts & fg & _ & H).
    rewrite H. unfold outcome. cbv zeta.
    cbn [truthy String.eqb Ascii.eqb Bool.eqb writable env_readonly andb negb].
    eexists. split; [reflexivity|]. split; reflexivity.
  - destruct (run_R env_headless _ None true w_fresh headless_style) as (ts & fg & _ & H).
    rewrite H. unfold outcome. cbv zeta.
    cbn [truthy display_ok env_headless andb negb].
    eexists. split; [reflexivity|]. split; reflexivity.
Qed.

(** C6 fails as written: a run on the desktop returns with the axes face
    colour of seaborn-v0_8 in the process-wide rcParams, where the default
    was before. *)
Lemma style_leaks :
  exists w',
    exp_curse_of_dimensionality env_desktop None false w_fresh = (Ok (0, 0), w') /\
    rcParams w_fresh !! "axes.facecolor"%string = Some "white"%string /\
    rcParams w' !! "axes.facecolor"%string = Some "#EAEAF2"%string /\
    rcParams w' <> rcParams w_fresh.
Proof.
  destruct (run_R env_desktop _ None false w_fresh desktop_style) as (ts & fg & _ & H).
  eexists. split; [rewrite H; reflexivity|].
  split; [apply lookup_singleton_eq|].
  assert (Hl : (seaborn_v0_8 ∪ rcParams w_fresh) !! "axes.facecolor"%string
               = Some "#EAEAF2"%string).
  { apply lookup_union_Some_l, lookup_singleton_eq. }
  split; [exact Hl|].
  intros Heq. change (rcParams _) with (seaborn_v0_8 ∪ rcParams w_fresh) in Heq at 1.
  rewrite Heq in Hl. cbn [rcParams w_fresh] in Hl.
  rewrite lookup_singleton_eq in Hl. discriminate Hl.
Qed.
End Scenarios.

(** ** The statements above, on the desktop *)

Section Witnesses.
Lemma returned_figure_is_closed_witness :
  exists w',
    exp_curse_of_dimensionality env_desktop (Some "plot.png"%string) true w_fresh
      = (Ok (0, 0), w') /\
    last (calls w') = Some (Close 0) /\
    (0 ∉ managed w') /\
    Subplots 0 ∈ calls w' /\
    is_Some (figures w' !! 0) /\
    0 = 0.
Proof.
  destruct (desktop_returns (Some "plot.png"%string) true) as [w' H].
  exists w'. split; [exact H|].
  exact (returned_figure_is_closed env_desktop _ _ _ _ _ _ H).
Defined.

Lemma figure_released_witness :
  (exists fig w',
      exp_curse_of_dimensionality env_desktop (Some "plot.png"%string) true w_fresh
        = (Ok (fig, fig), w') /\
      last (calls w') = Some (Close fig) /\
      (fig ∉ managed w') /\
      managed w' = filter (fun i => i ≠ fig) (managed w_fresh)) \/
  (exists e w',
      exp_curse_of_dimensionality env_desktop (Some "plot.png"%string) true w_fresh
        = (Raise e, w') /\
      managed w' = managed w_fresh /\ figures w' = figures w_fresh /\
      calls w' = calls w_fresh).
Proof.
  apply (figure_released_unless_save_or_show_raises env_desktop
           (Some "plot.png"%string) true w_fresh); right; reflexivity.
Defined.

Lemma style_persists_witness :
  exists w' s,
    exp_curse_of_dimensionality env_desktop None false w_fresh = (Ok (0, 0), w') /\
    style_library env_desktop !! "seaborn-v0_8"%string = Some s /\
    rcParams w' = s ∪ rcParams w_fresh /\
    (rcParams w' = rcParams w_fresh <-> s ⊆ rcParams w_fresh).
Proof.
  destruct (desktop_returns None false) as [w' H].
  destruct (style_persists env_desktop _ _ _ _ _ H) as (s & Hs).
  exists w', s. split; [exact H|exact Hs].
Defined.


Lemma entry_point_and_show_witness :
  exists w',
    exp_curse_of_dimensionality env_desktop None true w_fresh = (Ok (0, 0), w') /\
    main env_desktop w_fresh = (Ok tt, w') /\
    shown (calls w') = [[0]] /\
    shown (calls (snd (exp_curse_of_dimensionality env_desktop None false w_fresh))) = [].
Proof.
  destruct (desktop_returns None true) as [w' H].
  destruct (entry_point_and_show env_desktop None w_fresh) as (_ & Hmain & Hoff & Hon).
  exists w'. split; [exact H|]. split; [rewrite Hmain, H; reflexivity|].
  split; [exact (Hon _ _ H)|exact Hoff].
Defined.

Lemma one_report_per_dimension_witness :
  exists w' ts,
    exp_curse_of_dimensionality env_desktop (Some "plot.png"%string) false w_fresh
      = (Ok (0, 0), w') /\
    sampled env_desktop (rng_pos w_fresh) dimensions ts /\
    length (reports dimensions ts) = length dimensions /\
    stdout w' = stdout w_fresh ++ reports dimensions ts ++
                [[Lit "Saved plot to "; FmtStr "plot.png"]] /\
    significant_digits g6 = 6 /\
    forall i dim, dimensions !! i = Some dim ->
      exists mn mx r,
        ts !! i = Some (mn, mx, r) /\
        reports dimensions ts !! i
          = Some [Lit "Dimension: "; FmtInt dim;
                  Lit ", Min Distance: "; FmtFloat g6 mn;
                  Lit ", Max Distance: "; FmtFloat g6 mx;
                  Lit ", Ratio (Max/Min): "; FmtFloat g6 r].
Proof.
  destruct (desktop_returns (Some "plot.png"%string) false) as [w' H].
  destruct (one_report_per_dimension env_desktop _ _ _ _ _ H) as (ts & Hts).
  exists w', ts. split; [exact H|exact Hts].
Defined.

Lemma ratios_aligned_witness :
  exists st w1,
    sample_all env_desktop w_fresh = (Ok st, w1) /\
    length (ratios st) = length dimensions /\ length dimensions = 6 /\
    (forall i dim, dimensions !! i = Some dim ->
       exists mn mx r,
         distance_stats
           (rand_matrix env_desktop
              (rng_pos w_fresh + 1000 * sum_list (take i dimensions)) 1000 dim)
           = Ok (mn, mx, r) /\
         ratios st !! i = Some r /\ min_dists st !! i = Some mn /\
         max_dists st !! i = Some mx).
Proof.
  destruct (sample_all_completes env_desktop w_fresh) as (ts & _ & H).
  destruct (ratios_aligned_with_dimensions env_desktop _ _ _ H) as (_ & Hl & H6 & Hi & _).
  eexists _, _. split; [exact H|]. split; [exact Hl|]. split; [exact H6|exact Hi].
Defined.
End Witnesses.

(** ** The pyplot part, run in binary64 *)

Section Binary64Run.
Example plot_b64_calls :
  fst (plot_b64 (Some "plot.png"%string) true) = Ok (0, 0) /\
  calls (snd (plot_b64 (Some "plot.png"%string) true))
    = [StyleUse "seaborn-v0_8"; Subplots 0; Savefig 0 "plot.png"; Show [0]; Close 0] /\
  managed (snd (plot_b64 (Some "plot.png"%string) true)) = [] /\
  stdout (snd (plot_b64 (Some "plot.png"%string) true))
    = [[Lit "Saved plot to "; FmtStr "plot.png"]].
Proof. vm_compute. repeat split. Qed.

Example plot_b64_bars :
  (ax_bars ∘ fig_axes) <$> figures (snd (plot_b64 None false)) !! 0
    = Some (zip_with (fun x h =>
              {| bar_x := x; bar_width := 0.6%float; bar_height := h;
                 bar_color := "#2b8cbe"; bar_edgecolor := "#204d74";
                 bar_linewidth := 0.8%float |})
              [-0.3; 0.7; 1.7; 2.7; 3.7; 4.7]%float ratios_b64).
Proof. vm_compute. reflexivity. Qed.

(* The reducer on a sample of four points in three dimensions. *)
Example stats_b64_sample :
  distance_stats [[0.5; 0.25; 0.125]; [0.5; 0.25; 0.875]; [0.25; 0.5; 0.125];
                  [0.75; 0.75; 0.75]]%float
    = Ok (0.35355339059327379, 0.83852549156242118, 2.3717082451195766)%float.
Proof. vm_compute. reflexivity. Qed.
End Binary64Run.

(** * Further properties of the code *)

(** ** The reducer at its edges *)

Section ReducerEdges.
Context {F : Type} {FL : Float F}.

Lemma pdist_few_rows (X : list (list F)) : length X < 2 -> pdist X = [].
Proof.
  destruct X as [|u [|v rest]]; cbn [length]; intros H; try reflexivity. lia.
Qed.

(** X1: the reducer raises ValueError (from the empty reduction at line 37)
    exactly on a sample set of fewer than two vectors; on two or more it
    never does, whatever the arithmetic. *)
Theorem reducer_value_error_iff (X : list (list F)) :
  (exists msg, distance_stats X = Raise (ValueError msg)) <-> length X < 2.
Proof.
  split.
  - intros [msg H]. destruct (Nat.lt_ge_cases (length X) 2) as [Hlt|Hge]; [exact Hlt|].
    exfalso. pose proof (pdist_nonempty X Hge) as Hne.
    unfold distance_stats in H. destruct (pdist X) as [|d ds]; [contradiction|].
    cbn [array_min array_max rbind] in H. unfold truediv in H.
    destruct (feqb _ _); discriminate H.
  - intros Hlt. unfold distance_stats. rewrite (pdist_few_rows X Hlt).
    cbn [array_min rbind]. eauto.
Qed.
End ReducerEdges.

Section ReducerEdgesR.
Open Scope R_scope.

Lemma euclidean_self (u : list R) : euclidean u u = 0.
Proof.
  rewrite euclidean_l2. unfold l2_distance.
  replace (foldr Rplus 0 (zip_with (fun a b => (a - b) * (a - b)) u u)) with 0;
    [apply sqrt_0|].
  induction u as [|a u IH]; [reflexivity|]. cbn [zip_with foldr]. rewrite <- IH. lra.
Qed.

(** X2: a sample set of n >= 2 copies of one point has minimum and maximum
    distance 0 and, the guard standing alone in the divisor, ratio 0. *)
Theorem reducer_on_copies (n : nat) (u : list R) :
  (2 <= n)%nat -> distance_stats (replicate n u) = Ok (0, 0, 0).
Proof.
  intros Hn.
  destruct (distance_stats_R (replicate n u)) as (mn & mx & Hst & Hmn & Hmx & _).
  { rewrite length_replicate. exact Hn. }
  assert (Hz : forall d, d ∈ pdist (replicate n u) -> d = 0).
  { intros d (i & j & a & b & _ & Hi & Hj & ->)%pdist_elem.
    apply lookup_replicate in Hi as [-> _]. apply lookup_replicate in Hj as [-> _].
    apply euclidean_self. }
  rewrite Hst, (Hz mn Hmn), (Hz mx Hmx). do 2 f_equal. lra.
Qed.

Lemma reducer_on_copies_witness :
  distance_stats (replicate 3 [1 / 2; 1 / 4]) = Ok (0, 0, 0).
Proof. apply (reducer_on_copies 3 [1 / 2; 1 / 4]). lia. Defined.
End ReducerEdgesR.

(** ** The reducer and the order of the sample *)

Section ReducerOrder.
Open Scope R_scope.

Lemma euclidean_sym (u v : list R) : euclidean u v = euclidean v u.
Proof.
  rewrite !euclidean_l2. unfold l2_distance. f_equal. f_equal.
  revert v. induction u as [|a u IH]; intros [|b v]; cbn [zip_with]; try reflexivity.
  rewrite IH. f_equal. lra.
Qed.

(* The distances of a sample, pairs taken in either order. *)
Lemma pdist_elem_unordered (X : list (list R)) (d : R) :
  d ∈ pdist X <->
  exists i j u v, i <> j /\ X !! i = Some u /\ X !! j = Some v /\ d = euclidean u v.
Proof.
  rewrite pdist_elem. split.
  - intros (i & j & u & v & Hij & Hi & Hj & ->). exists i, j, u, v.
    repeat split; auto. lia.
  - intros (i & j & u & v & Hij & Hi & Hj & ->).
    destruct (Nat.lt_total i j) as [Hlt|[->|Hgt]]; [|contradiction|].
    + exists i, j, u, v. auto.
    + exists j, i, v, u. repeat split; auto. apply euclidean_sym.
Qed.

Lemma pdist_perm_incl (X X' : list (list R)) (d : R) :
  X ≡ₚ X' -> d ∈ pdist X -> d ∈ pdist X'.
Proof.
  intros HP. apply Permutation_inj in HP as (_ & f & Hf & Hl).
  rewrite !pdist_elem_unordered. intros (i & j & u & v & Hij & Hi & Hj & ->).
  exists (f i), (f j), u, v. rewrite <- !Hl. repeat split; auto.
Qed.

Lemma array_min_ext (l l' : list R) :
  (forall d, d ∈ l <-> d ∈ l') -> array_min l = array_min l'.
Proof.
  intros Hext. destruct l as [|x xs], l' as [|y ys]; try reflexivity.
  - exfalso. apply (not_elem_of_nil y), Hext. left.
  - exfalso. apply (not_elem_of_nil x), Hext. left.
  - destruct (array_min_spec (x :: xs)) as (m & Hm & Hin & Hle); [discriminate|].
    destruct (array_min_spec (y :: ys)) as (m' & Hm' & Hin' & Hle'); [discriminate|].
    rewrite Hm, Hm'. f_equal. apply Rle_antisym.
    + apply Hle, Hext, Hin'.
    + apply Hle', Hext, Hin.
Qed.

Lemma array_max_ext (l l' : list R) :
  (forall d, d ∈ l <-> d ∈ l') -> array_max l = array_max l'.
Proof.
  intros Hext. destruct l as [|x xs], l' as [|y ys]; try reflexivity.
  - exfalso. apply (not_elem_of_nil y), Hext. left.
  - exfalso. apply (not_elem_of_nil x), Hext. left.
  - destruct (array_max_spec (x :: xs)) as (m & Hm & Hin & Hle); [discriminate|].
    destruct (array_max_spec (y :: ys)) as (m' & Hm' & Hin' & Hle'); [discriminate|].
    rewrite Hm, Hm'. f_equal. apply Rle_antisym.
    + apply Hle', Hext, Hin.
    + apply Hle, Hext, Hin'.
Qed.

(** X3: the reducer does not depend on the order of the sample vectors:
    reordering the rows leaves min, max and ratio (or the exception) as they
    were. *)
Theorem reducer_order_irrelevant (X X' : list (list R)) :
  X ≡ₚ X' -> distance_stats X = distance_stats X'.
Proof.
  intros HP.
  assert (Hext : forall d, d ∈ pdist X <-> d ∈ pdist X').
  { intros d. split; apply pdist_perm_incl; [exact HP|symmetry; exact HP]. }
  unfold distance_stats.
  rewrite (array_min_ext _ _ Hext), (array_max_ext _ _ Hext). reflexivity.
Qed.

Lemma reducer_order_irrelevant_witness :
  distance_stats [[0]; [0]; [1]] = distance_stats [[1]; [0]; [0]].
Proof.
  apply (reducer_order_irrelevant [[0]; [0]; [1]] [[1]; [0]; [0]]).
  apply (Permutation_app_comm [[0]; [0]] [[1]]).
Defined.
End ReducerOrder.

(** ** The reducer on what the sampler draws *)

Section ReducerOnDraws.
Open Scope R_scope.
Variable env : Env R.

Lemma rand_matrix_rows (pos rows cols : nat) (u : list R) :
  unit_draws env -> u ∈ rand_matrix env pos rows cols ->
  length u = cols /\ Forall (fun x => 0 <= x < 1) u.
Proof.
  intros Hd Hu. unfold rand_matrix in Hu.
  apply list_elem_of_fmap in Hu as (i & -> & _). split.
  - rewrite length_map. apply length_seq.
  - apply Forall_forall. intros x (j & -> & _)%list_elem_of_fmap. apply Hd.
Qed.

Lemma sum_sq_le (u v : list R) :
  Forall (fun x => 0 <= x < 1) u -> Forall (fun x => 0 <= x < 1) v ->
  0 <= foldr Rplus 0 (zip_with (fun a b => (a - b) * (a - b)) u v) <= INR (length u).
Proof.
  intros Hu. revert v. induction Hu as [|a u Ha Hu IH]; intros v Hv.
  - cbn. lra.
  - destruct Hv as [|b v Hb Hv].
    + cbn [zip_with foldr]. pose proof (pos_INR (length (a :: u))). lra.
    + cbn [zip_with foldr length]. rewrite S_INR.
      specialize (IH v Hv).
      assert (Hsq : 0 <= (a - b) * (a - b) <= 1).
      { assert (Ht : -1 < a - b < 1) by lra. revert Ht. generalize (a - b). intros t Ht.
        split; [apply Rle_0_sqr|]. nra. }
      lra.
Qed.

Lemma euclidean_le_sqrt_dim (u v : list R) :
  Forall (fun x => 0 <= x < 1) u -> Forall (fun x => 0 <= x < 1) v ->
  0 <= euclidean u v <= sqrt (INR (length u)).
Proof.
  intros Hu Hv. split; [apply euclidean_nonneg|].
  rewrite euclidean_l2. unfold l2_distance. apply sqrt_le_1_alt, sum_sq_le; assumption.
Qed.

(** X4: with draws in [0, 1), as np.random.rand gives them, every sample of
    at least two vectors of dimension d has 0 <= min <= max <= sqrt d, and
    the ratio stays below sqrt d * 1e12: the guard bounds it. *)
Theorem reducer_bounds_on_draws (pos rows cols : nat) :
  unit_draws env -> (2 <= rows)%nat ->
  exists mn mx r,
    distance_stats (rand_matrix env pos rows cols) = Ok (mn, mx, r) /\
    0 <= mn <= mx /\ mx <= sqrt (INR cols) /\
    0 <= r <= sqrt (INR cols) * 1e12.
Proof.
  intros Hd Hrows.
  destruct (distance_stats_R (rand_matrix env pos rows cols))
    as (mn & mx & Hst & Hmn & Hmx & Hb & H0).
  { rewrite rand_matrix_length. exact Hrows. }
  exists mn, mx, (mx / (mn + 1e-12)). split; [exact Hst|].
  assert (Hmx_le : mx <= sqrt (INR cols)).
  { apply pdist_elem in Hmx as (i & j & u & v & _ & Hi & Hj & ->).
    apply list_elem_of_lookup_2 in Hi, Hj.
    destruct (rand_matrix_rows _ _ _ _ Hd Hi) as [Hlen Hu].
    destruct (rand_matrix_rows _ _ _ _ Hd Hj) as [_ Hv].
    rewrite <- Hlen. apply euclidean_le_sqrt_dim; assumption. }
  pose proof (Hb mx Hmx) as [Hle _].
  split; [lra|]. split; [exact Hmx_le|].
  assert (Hpos : 0 < mn + 1e-12) by lra.
  split; [apply Rle_mult_inv_pos; lra|].
  apply (Rmult_le_reg_r (mn + 1e-12)); [exact Hpos|].
  unfold Rdiv. rewrite Rmult_assoc, Rinv_l by lra.
  pose proof (sqrt_pos (INR cols)). nra.
Qed.
End ReducerOnDraws.

(** ** The chart a run builds *)

Section ChartFacts.
Context {F : Type} {FL : Float F}.
Variable env : Env F.

Lemma render_chart (s : gmap string string) (rs : list F) (w : World F) :
  style_library env !! "seaborn-v0_8"%string = Some s ->
  length rs = 6 ->
  render env rs w
    = (Ok (next_id w, next_id w), rendered s (chart (s ∪ rcParams w) rs) w).
Proof.
  intros Hs Hlen.
  destruct rs as [|r0 [|r1 [|r2 [|r3 [|r4 [|r5 [|]]]]]]]; try discriminate.
  destruct w as [pos out rc figs mgd nid fls cls].
  unfold render, bind at 1. unfold plt_style_use at 1. rewrite Hs.
  eval_prims. rewrite !lookup_alter_eq, lookup_insert_eq.
  eval_prims. rewrite last_snoc.
  eval_prims. rewrite !alter_insert_eq.
  unfold rendered, chart, label_at, bar_at. eval_prims. cbn [app].
  rewrite <- (app_assoc cls). reflexivity.
Qed.

(* A run whose sampling completes, under a known style: lines 81-89 on the
   world that holds the chart of the sampled ratios. *)
Lemma exp_chart (save_path : option string) (show : bool) (w : World F)
    (ts : list (F * F * F)) (s : gmap string string) :
  sample_all env w = (Ok (stats_of ts), after_sampling ts w) ->
  sampled env (rng_pos w) dimensions ts ->
  style_library env !! "seaborn-v0_8"%string = Some s ->
  exp_curse_of_dimensionality env save_path show w
    = outcome env (next_id w) (chart (s ∪ rcParams w) (map snd ts)) save_path show
        (rendered s (chart (s ∪ rcParams w) (map snd ts)) (after_sampling ts w)).
Proof.
  intros Hsa Hts Hs. unfold exp_curse_of_dimensionality, bind at 1. rewrite Hsa.
  unfold bind at 1.
  rewrite (render_chart s _ _ Hs).
  2:{ unfold stats_of. cbn [ratios]. rewrite length_map. apply (sampled_length _ _ _ _ Hts). }
  cbn [fst snd]. unfold stats_of. cbn [ratios].
  replace (rcParams (after_sampling ts w)) with (rcParams w) by (destruct w; reflexivity).
  replace (next_id (after_sampling ts w)) with (next_id w) by (destruct w; reflexivity).
  apply finish_spec. unfold rendered. cbn [figures].
  replace (next_id (after_sampling ts w)) with (next_id w) by (destruct w; reflexivity).
  apply lookup_insert_eq.
Qed.

(* Every run, by how far it got. *)
Lemma exp_stages (save_path : option string) (show : bool) (w : World F) :
  (exists e out pos,
      exp_curse_of_dimensionality env save_path show w
        = (Raise e, set_stdout out (set_rng_pos pos w))) \/
  (exists ts,
      sampled env (rng_pos w) dimensions ts /\
      style_library env !! "seaborn-v0_8"%string = None /\
      exp_curse_of_dimensionality env save_path show w
        = (Raise (OSError "seaborn-v0_8"), after_sampling ts w)) \/
  (exists ts s,
      sampled env (rng_pos w) dimensions ts /\
      sample_all env w = (Ok (stats_of ts), after_sampling ts w) /\
      style_library env !! "seaborn-v0_8"%string = Some s /\
      exp_curse_of_dimensionality env save_path show w
        = outcome env (next_id w) (chart (s ∪ rcParams w) (map snd ts)) save_path show
            (rendered s (chart (s ∪ rcParams w) (map snd ts)) (after_sampling ts w))).
Proof.
  destruct (exp_outcome env save_path show w)
    as [(e & out & pos & _ & H)|[(ts & Hts & _ & Hs & H)
       |(ts & s & fg & Hts & Hsa & Hs & _)]].
  - left. eauto.
  - right. left. eauto.
  - right. right. exists ts, s. repeat (split; [assumption|]).
    apply exp_chart; assumption.
Qed.
End ChartFacts.

Section ChartOfARun.
Context {F : Type} {FL : Float F}.
Variable env : Env F.

(* What a returning run leaves at the handle it returns. *)
Lemma returned_chart (save_path : option string) (show : bool) (w w' : World F)
    (fa : nat * nat) :
  exp_curse_of_dimensionality env save_path show w = (Ok fa, w') ->
  exists ts s,
    sampled env (rng_pos w) dimensions ts /\
    sample_all env w = (Ok (stats_of ts), after_sampling ts w) /\
    style_library env !! "seaborn-v0_8"%string = Some s /\
    fa = (next_id w, next_id w) /\
    figures w' !! fst fa = Some (chart (s ∪ rcParams w) (map snd ts)).
Proof.
  intros Hrun.
  destruct (exp_stages env save_path show w)
    as [(e & out & pos & H)|[(ts & _ & _ & H)|(ts & s & Hts & Hsa & Hs & H)]];
    rewrite H in Hrun; clear H.
  1,2: apply pair_equal_spec in Hrun as [Hr _]; discriminate Hr.
  exists ts, s. repeat (split; [assumption|]).
  destruct w as [pos out rc figs mgd nid fls cls].
  unfold outcome in Hrun. cbv zeta in Hrun.
  destruct (truthy save_path), (writable env (default ""%string save_path)), show,
    (display_ok env); worlds; apply pair_equal_spec in Hrun as [Hr Hw];
    try discriminate Hr; injection Hr as <-; subst w'; worlds;
    (split; [reflexivity|apply lookup_insert_eq]).
Qed.

(** X9: the figure a returning run hands back is the chart of lines 51-79:
    11 by 6 inches at 150 dpi, laid out tightly, created under the rcParams
    the style left; a log-scaled y axis; the axis labels, the bold title and
    the dashed y grid of the source; top and right spines hidden; ticks
    0..5 labelled, right-aligned, with the dimensions in decimal; one bar
    and one annotation per dimension. *)
Theorem chart_of_a_run (save_path : option string) (show : bool) (w w' : World F)
    (fa : nat * nat) :
  exp_curse_of_dimensionality env save_path show w = (Ok fa, w') ->
  exists s fg,
    style_library env !! "seaborn-v0_8"%string = Some s /\
    figures w' !! fst fa = Some fg /\
    fig_size fg = (11%Z, 6%Z) /\ fig_dpi fg = 150%Z /\ fig_tight fg = true /\
    fig_rc fg = s ∪ rcParams w /\
    ax_yscale (fig_axes fg) = "log"%string /\
    ax_xlabel (fig_axes fg) = ("Dimension"%string, 14%Z) /\
    ax_ylabel (fig_axes fg)
      = ("Max / Min pairwise distance ratio (log scale)"%string, 12%Z) /\
    ax_title (fig_axes fg)
      = ("Curse of Dimensionality: Max/Min Distance Ratio vs Dimension"%string,
         14%Z, "bold"%string) /\
    ax_grid (fig_axes fg)
      = Some {| grid_which := "both"; grid_axis := "y"; grid_linestyle := "--";
                grid_alpha := fdec 6 (-1) |} /\
    ax_spine_top (fig_axes fg) = false /\ ax_spine_right (fig_axes fg) = false /\
    ax_xticks (fig_axes fg) = [0; 1; 2; 3; 4; 5] /\
    ax_xticklabels (fig_axes fg)
      = ["2"; "3"; "192"; "384"; "768"; "1536"]%string /\
    ax_xticklabels_ha (fig_axes fg) = "right"%string /\
    length (ax_bars (fig_axes fg)) = 6 /\
    length (ax_annotations (fig_axes fg)) = 6.
Proof.
  intros Hrun.
  destruct (returned_chart _ _ _ _ _ Hrun) as (ts & s & Hts & _ & Hs & _ & Hfg).
  pose proof (sampled_length _ _ _ _ Hts) as Hlen.
  exists s, (chart (s ∪ rcParams w) (map snd ts)).
  split; [exact Hs|]. split; [exact Hfg|].
  repeat (split; [reflexivity|]).
  unfold chart. cbn [fig_axes ax_bars ax_annotations].
  rewrite !length_zip_with, !length_map, length_seq, Hlen. split; reflexivity.
Qed.


End ChartOfARun.

(** ** Runs one after another *)

Section RunsCompose.
Context {F : Type} {FL : Float F}.
Variable env : Env F.


End RunsCompose.

(** ** The sampler and the random source *)

Section Draws.
Context {F : Type} {FL : Float F}.
Variable env : Env F.


End Draws.

(** ** Runs over the reals: every way out *)

Section WaysOut.
Open Scope R_scope.
Variable env : Env R.

Lemma exp_stages_R (save_path : option string) (show : bool) (w : World R) :
  exists ts,
    sampled env (rng_pos w) dimensions ts /\
    exp_curse_of_dimensionality env save_path show w
      = match style_library env !! "seaborn-v0_8"%string with
        | None => (Raise (OSError "seaborn-v0_8"), after_sampling ts w)
        | Some s =>
            outcome env (next_id w) (chart (s ∪ rcParams w) (map snd ts)) save_path show
              (rendered s (chart (s ∪ rcParams w) (map snd ts)) (after_sampling ts w))
        end.
Proof.
  destruct (sample_all_completes env w) as (ts & Hts & Hsa).
  exists ts. split; [exact Hts|].
  destruct (style_library env !! "seaborn-v0_8"%string) as [s|] eqn:Hs.
  - apply exp_chart; assumption.
  - unfold exp_curse_of_dimensionality, bind at 1. rewrite Hsa. unfold bind at 1.
    rewrite (render_unknown_style env _ _ Hs). reflexivity.
Qed.


(** X6: where pyplot does not know the style seaborn-v0_8, the run has
    already sampled and printed its six lines when it raises OSError at line
    50; it has made no figure, written no file and left rcParams alone. *)
Theorem unknown_style (save_path : option string) (show : bool) (w : World R) :
  style_library env !! "seaborn-v0_8"%string = None ->
  exists ts w',
    exp_curse_of_dimensionality env save_path show w
      = (Raise (OSError "seaborn-v0_8"), w') /\
    sampled env (rng_pos w) dimensions ts /\
    stdout w' = stdout w ++ reports dimensions ts /\
    length (reports dimensions ts) = 6%nat /\
    rcParams w' = rcParams w /\ figures w' = figures w /\ managed w' = managed w /\
    files w' = files w /\ calls w' = calls w /\ next_id w' = next_id w.
Proof.
  intros Hs. destruct (exp_stages_R save_path show w) as (ts & Hts & H).
  rewrite Hs in H. exists ts, (after_sampling ts w).
  split; [exact H|]. split; [exact Hts|].
  pose proof (sampled_length _ _ _ _ Hts) as Hlen.
  destruct w; worlds. split; [reflexivity|]. split.
  - unfold reports. rewrite length_zip_with, Hlen. reflexivity.
  - repeat split; reflexivity.
Qed.


End WaysOut.

(** ** Bars and their labels *)

Section BarsAndLabels.
Open Scope R_scope.
Variable env : Env R.

Lemma of_nat_R (i : nat) : @of_nat R _ i = INR i.
Proof.
  unfold of_nat. cbn [fdec Float_R]. unfold Rdec. cbn [Z.leb Z.compare].
  change (10 ^ 0)%Z with 1%Z. rewrite Z.mul_1_r. symmetry. apply INR_IZR_INZ.
Qed.

Lemma bar_centre (i : nat) (h : R) :
  bar_x (bar_at i h) + bar_width (bar_at i h) / 2 = INR i.
Proof.
  unfold bar_at. cbn [bar_x bar_width fsub fdiv Float_R]. rewrite of_nat_R.
  change (fdec 6 (-1)) with (6 / 10). change (fdec 2 0) with 2. lra.
Qed.

Lemma label_xy (i : nat) (r : R) : ann_xy (label_at i r) = (INR i, r).
Proof.
  unfold label_at. cbn [ann_xy fadd fdiv Float_R]. f_equal.
  change (fdec 2 0) with 2. apply bar_centre.
Qed.

(** X10: in the chart of a returning run the i-th bar is as high as the
    i-th ratio, 0.6 wide and centred on tick i; its annotation is anchored
    at the top centre of the bar, (i, ratio), 6 points above, and shows the
    ratio in the format .2e, three significant digits. In binary64 the six
    anchors fall on 0, 1, ..., 5 exactly as well. *)
Theorem bars_and_labels (save_path : option string) (show : bool) (w w' : World R)
    (fa : nat * nat) :
  exp_curse_of_dimensionality env save_path show w = (Ok fa, w') ->
  exists st w1 fg,
    sample_all env w = (Ok st, w1) /\
    figures w' !! fst fa = Some fg /\
    (forall i r, ratios st !! i = Some r ->
       exists b a,
         ax_bars (fig_axes fg) !! i = Some b /\
         ax_annotations (fig_axes fg) !! i = Some a /\
         bar_height b = r /\ bar_width b = 6 / 10 /\
         bar_x b + bar_width b / 2 = INR i /\
         ann_xy a = (INR i, r) /\
         ann_text a = [FmtFloat e2 r] /\
         ann_xytext a = (0%Z, 6%Z)) /\
    significant_digits e2 = 3%nat /\
    map (fun i => fst (ann_xy (label_at i 1%float))) (seq 0 6)
      = [0; 1; 2; 3; 4; 5]%float.
Proof.
  intros Hrun.
  destruct (returned_chart _ _ _ _ _ _ Hrun) as (ts & s & Hts & Hsa & _ & _ & Hfg).
  pose proof (sampled_length _ _ _ _ Hts) as Hlen.
  exists (stats_of ts), (after_sampling ts w), (chart (s ∪ rcParams w) (map snd ts)).
  split; [exact Hsa|]. split; [exact Hfg|].
  split; [|split; [reflexivity|vm_compute; reflexivity]].
  intros i r Hi. unfold stats_of in Hi. cbn [ratios] in Hi.
  assert (Hlt : (i < length dimensions)%nat).
  { apply lookup_lt_Some in Hi. rewrite length_map in Hi. lia. }
  exists (bar_at i r), (label_at i r).
  unfold chart. cbn [fig_axes ax_bars ax_annotations].
  rewrite !lookup_zip_with, (lookup_seq_lt _ _ _ Hlt), Hi. cbn [mbind option_bind Nat.add].
  split; [reflexivity|]. split; [reflexivity|]. split; [reflexivity|].
  split; [reflexivity|]. split; [apply bar_centre|]. split; [apply label_xy|].
  split; reflexivity.
Qed.
End BarsAndLabels.

(** ** The further statements, on the machines above *)

Section FurtherWitnesses.
Open Scope R_scope.

Lemma draws_unit_range : unit_draws env_desktop.
Proof.
  intros k. cbn [draws env_desktop]. unfold draws_unit.
  assert (H2 : 2 <= INR (k + 2)).
  { rewrite plus_INR. pose proof (pos_INR k). change (INR 2) with 2. lra. }
  split.
  - left. apply Rinv_0_lt_compat. lra.
  - rewrite <- Rinv_1. apply Rinv_lt_contravar; lra.
Qed.

Lemma reducer_bounds_on_draws_witness :
  exists mn mx r,
    distance_stats (rand_matrix env_desktop 0 1000 2) = Ok (mn, mx, r) /\
    0 <= mn <= mx /\ mx <= sqrt (INR 2) /\ 0 <= r <= sqrt (INR 2) * 1e12.
Proof.
  apply (reducer_bounds_on_draws env_desktop 0 1000 2); [exact draws_unit_range|lia].
Defined.


Lemma chart_of_a_run_witness :
  exists w' s fg,
    exp_curse_of_dimensionality env_desktop None false w_fresh = (Ok (0%nat, 0%nat), w') /\
    style_library env_desktop !! "seaborn-v0_8"%string = Some s /\
    figures w' !! 0%nat = Some fg /\
    fig_size fg = (11%Z, 6%Z) /\ fig_dpi fg = 150%Z /\ fig_tight fg = true /\
    ax_yscale (fig_axes fg) = "log"%string /\
    ax_xticklabels (fig_axes fg) = ["2"; "3"; "192"; "384"; "768"; "1536"]%string /\
    length (ax_bars (fig_axes fg)) = 6%nat.
Proof.
  destruct (desktop_returns None false) as [w' H].
  destruct (chart_of_a_run env_desktop _ _ _ _ _ H)
    as (s & fg & Hs & Hfg & H1 & H2 & H3 & _ & H5 & _ & _ & _ & _ & _ & _ & _ & H13 & _ & H15 & _).
  exists w', s, fg. repeat (split; [assumption|]). assumption.
Defined.

Lemma bars_and_labels_witness :
  exists w' st w1 fg,
    exp_curse_of_dimensionality env_desktop None false w_fresh = (Ok (0%nat, 0%nat), w') /\
    sample_all env_desktop w_fresh = (Ok st, w1) /\
    figures w' !! 0%nat = Some fg /\
    (forall i r, ratios st !! i = Some r ->
       exists b a,
         ax_bars (fig_axes fg) !! i = Some b /\
         ax_annotations (fig_axes fg) !! i = Some a /\
         bar_height b = r /\ bar_width b = 6 / 10 /\
         bar_x b + bar_width b / 2 = INR i /\
         ann_xy a = (INR i, r) /\
         ann_text a = [FmtFloat e2 r] /\
         ann_xytext a = (0%Z, 6%Z)).
Proof.
  destruct (desktop_returns None false) as [w' H].
  destruct (bars_and_labels env_desktop _ _ _ _ _ H) as (st & w1 & fg & Hsa & Hfg & Hb & _).
  exists w', st, w1, fg. repeat (split; [assumption|]). assumption.
Defined.


Lemma old_matplotlib_style :
  style_library env_old_matplotlib !! "seaborn-v0_8"%string = None.
Proof. apply lookup_empty. Qed.

Lemma unknown_style_witness :
  exists ts w',
    exp_curse_of_dimensionality env_old_matplotlib None true w_fresh
      = (Raise (OSError "seaborn-v0_8"), w') /\
    sampled env_old_matplotlib (rng_pos w_fresh) dimensions ts /\
    stdout w' = stdout w_fresh ++ reports dimensions ts /\
    length (reports dimensions ts) = 6%nat /\
    rcParams w' = rcParams w_fresh /\ figures w' = figures w_fresh /\
    managed w' = managed w_fresh /\ files w' = files w_fresh /\
    calls w' = calls w_fresh /\ next_id w' = next_id w_fresh.
Proof.
  apply (unknown_style env_old_matplotlib None true w_fresh old_matplotlib_style).
Defined.

End FurtherWitnesses.

Section FailedSave.
Variable env : Env R.

End FailedSave.

Section FailedSaveWitness.
End FailedSaveWitness.
